(** * GPU resource core: parameter store, pipeline state and mesh data pipeline

    A shallow embedding of
      - BansheeCore/Include/BsGpuParams.h        (module [BsGpuParams]),
      - BansheeCore/Include/BsGpuPipelineState.h (module [BsGpuPipelineState]),
      - CamelotCore/Source/CmMesh.cpp            (module [CmMesh]),
    followed by the properties of these operations.

    Conventions.  A [UINT32] is an [N] whose arithmetic is wrapped with [u32];
    a smart pointer ([std::shared_ptr], [SPtr]) is an [option], [None] being
    [nullptr]; a raw byte region is a [list Byte.byte]; a C++ exception is the
    [Throw] or [Raised] outcome and undefined behaviour (a null dereference, a
    copy that leaves its region) is the [Undefined] or [UB] outcome. *)

From stdpp Require Import base strings list gmap pretty.
From Stdlib Require Import NArith Lia.

Local Open Scope string_scope.
Local Open Scope list_scope.
Local Open Scope N_scope.

(** ** Outcomes of a call *)

(** The exception classes the sources raise (CM_EXCEPT / BS_EXCEPT), with the
    message they are raised with. *)
Inductive Exception : Type :=
  | InvalidParametersException (msg : string)
  | InternalErrorException (msg : string).

(** Result of a [const] method: a value, an exception or undefined behaviour. *)
Inductive result (A : Type) : Type :=
  | Ok (a : A)
  | Throw (e : Exception)
  | Undefined.
Arguments Ok {A} a.
Arguments Throw {A} e.
Arguments Undefined {A}.

(** Outcome of a method that mutates an object of type [S]: a raised exception
    leaves the object as it was mutated so far, undefined behaviour leaves
    nothing to speak about. *)
Inductive outcome (S A : Type) : Type :=
  | Done (a : A) (s : S)
  | Raised (e : Exception) (s : S)
  | UB.
Arguments Done {S A} a s.
Arguments Raised {S A} e s.
Arguments UB {S A}.

Definition Op (S A : Type) : Type := S -> outcome S A.

Definition ret {S A} (a : A) : Op S A := fun s => Done a s.

Definition bind {S A B} (c : Op S A) (k : A -> Op S B) : Op S B :=
  fun s => match c s with
           | Done a s' => k a s'
           | Raised e s' => Raised e s'
           | UB => UB
           end.

#[global] Instance Op_ret {S} : MRet (Op S) := fun A a => ret a.
#[global] Instance Op_bind {S} : MBind (Op S) := fun A B k c => bind c k.

Definition get {S} : Op S S := fun s => Done s s.
Definition modify {S} (f : S -> S) : Op S unit := fun s => Done tt (f s).
Definition raise {S A} (e : Exception) : Op S A := fun s => Raised e s.
Definition undefined {S A} : Op S A := fun _ => UB.

(** A [const] method run on the current object. *)
Definition liftR {S A} (f : S -> result A) : Op S A :=
  fun s => match f s with
           | Ok a => Done a s
           | Throw e => Raised e s
           | Undefined => UB
           end.

(** [p->...] on a pointer: dereferencing [nullptr] is undefined. *)
Definition deref {S A} (p : option A) : Op S A :=
  match p with Some a => ret a | None => undefined end.

(** [for (UINT32 i = ...; ...; i++) body], over the values [i] takes. *)
Fixpoint for_each {S I} (idxs : list I) (body : I -> Op S unit) : Op S unit :=
  match idxs with
  | [] => ret tt
  | i :: rest => body i ;; for_each rest body
  end.

(** The same monad without a state, for [const] methods. *)
Definition rbind {A B} (r : result A) (k : A -> result B) : result B :=
  match r with
  | Ok a => k a
  | Throw e => Throw e
  | Undefined => Undefined
  end.

Definition rderef {A} (p : option A) : result A :=
  match p with Some a => Ok a | None => Undefined end.

(** ** Machine integers *)

Definition u32 (x : N) : N := x mod 2 ^ 32.

(** The values [0, 1, ..., n - 1] a counter takes below the bound [n]. *)
Definition range (n : N) : list N := N.of_nat <$> seq 0 (N.to_nat n).

(** * BsGpuParams.h *)

Module BsGpuParams.

(** Modelled from the spec: the enum [GpuParamDataType] is declared outside the
    given sources.  The six tags [getParam] compares against are named as the
    source names them; the data parameters of the descriptor set also hold
    struct parameters and other scalar types. *)
Inductive GpuParamDataType : Type :=
  | GPDT_FLOAT1 | GPDT_FLOAT2 | GPDT_FLOAT3 | GPDT_FLOAT4
  | GPDT_MATRIX_3X3 | GPDT_MATRIX_4X4
  | GPDT_STRUCT
  | GPDT_OTHER (tag : N).

#[global] Instance GpuParamDataType_eq_dec : EqDecision GpuParamDataType.
Proof. solve_decision. Defined.

(** Modelled from the spec: one entry of the descriptor set,
    "name -> {type, block index, offset, array size}". *)
Record GpuParamDataDesc : Type := {
  type : GpuParamDataType;
  paramBlockSlot : N;
  cpuMemOffset : N;
  arraySize : N
}.

(** The descriptor set; [params] is the name-indexed map [getParam] searches. *)
Record GpuParamDesc : Type := {
  params : gmap string GpuParamDataDesc
}.

(** [std::shared_ptr<GpuParamsInternalData>]: a reference to the store's
    internal data, shared with every handle. *)
Definition InternalDataPtr : Type := option N.

Record GpuParams : Type := {
  mParamDesc : GpuParamDesc;
  mInternalData : InternalDataPtr
}.

(** The element types [T] of [getParam<T>]: the six with a specialisation,
    and any other type, which gets the primary template. *)
Inductive ElemType : Type :=
  | T_float | T_Vector2 | T_Vector3 | T_Vector4 | T_Matrix3 | T_Matrix4
  | T_other (n : N).

(** [TGpuDataParam<T>]: a pointer to the parameter's descriptor and the shared
    internal data; both null in a default-constructed handle. *)
Record TGpuDataParam (T : ElemType) : Type := {
  paramDescOf : option GpuParamDataDesc;
  internalDataOf : InternalDataPtr
}.
Arguments Build_TGpuDataParam T _ _ : clear implicits.
Arguments paramDescOf {T} _.
Arguments internalDataOf {T} _.

(** [GpuParamFloat(&iterFind->second, mInternalData)] and its siblings. *)
Definition GpuParamFloat d i := Build_TGpuDataParam T_float (Some d) i.
Definition GpuParamVec2 d i := Build_TGpuDataParam T_Vector2 (Some d) i.
Definition GpuParamVec3 d i := Build_TGpuDataParam T_Vector3 (Some d) i.
Definition GpuParamVec4 d i := Build_TGpuDataParam T_Vector4 (Some d) i.
Definition GpuParamMat3 d i := Build_TGpuDataParam T_Matrix3 (Some d) i.
Definition GpuParamMat4 d i := Build_TGpuDataParam T_Matrix4 (Some d) i.

(** [iterFind == end() || iterFind->second.type != expected] *)
Definition notFoundOrNot (iterFind : option GpuParamDataDesc)
    (expected : GpuParamDataType) : bool :=
  match iterFind with
  | None => true
  | Some d => negb (bool_decide (type d = expected))
  end.

(** The primary template: every type without a specialisation is refused.
    The state of the operation is the [output] argument. *)
Definition getParam_primary (n : N) (this : GpuParams) (name : string)
    : Op (TGpuDataParam (T_other n)) unit :=
  raise (InvalidParametersException "Unsupported parameter type").

Definition getParam_float (this : GpuParams) (name : string)
    : Op (TGpuDataParam T_float) unit :=
  let iterFind := params (mParamDesc this) !! name in
  if notFoundOrNot iterFind GPDT_FLOAT1 then
    raise (InvalidParametersException
             ("Cannot find float parameter with the name '" +:+ name +:+ "'"))
  else
    d ← deref iterFind;
    modify (fun _ => GpuParamFloat d (mInternalData this)).

Definition getParam_Vector2 (this : GpuParams) (name : string)
    : Op (TGpuDataParam T_Vector2) unit :=
  let iterFind := params (mParamDesc this) !! name in
  if notFoundOrNot iterFind GPDT_FLOAT2 then
    raise (InvalidParametersException
             ("Cannot find vector (2) parameter with the name '" +:+ name +:+ "'"))
  else
    d ← deref iterFind;
    modify (fun _ => GpuParamVec2 d (mInternalData this)).

Definition getParam_Vector3 (this : GpuParams) (name : string)
    : Op (TGpuDataParam T_Vector3) unit :=
  let iterFind := params (mParamDesc this) !! name in
  if notFoundOrNot iterFind GPDT_FLOAT3 then
    raise (InvalidParametersException
             ("Cannot find vector (3) parameter with the name '" +:+ name +:+ "'"))
  else
    d ← deref iterFind;
    modify (fun _ => GpuParamVec3 d (mInternalData this)).

Definition getParam_Vector4 (this : GpuParams) (name : string)
    : Op (TGpuDataParam T_Vector4) unit :=
  let iterFind := params (mParamDesc this) !! name in
  if notFoundOrNot iterFind GPDT_FLOAT4 then
    raise (InvalidParametersException
             ("Cannot find vector (4) parameter with the name '" +:+ name +:+ "'"))
  else
    d ← deref iterFind;
    modify (fun _ => GpuParamVec4 d (mInternalData this)).

Definition getParam_Matrix3 (this : GpuParams) (name : string)
    : Op (TGpuDataParam T_Matrix3) unit :=
  let iterFind := params (mParamDesc this) !! name in
  if notFoundOrNot iterFind GPDT_MATRIX_3X3 then
    raise (InvalidParametersException
             ("Cannot find matrix (3x3) parameter with the name '" +:+ name +:+ "'"))
  else
    d ← deref iterFind;
    modify (fun _ => GpuParamMat3 d (mInternalData this)).

Definition getParam_Matrix4 (this : GpuParams) (name : string)
    : Op (TGpuDataParam T_Matrix4) unit :=
  let iterFind := params (mParamDesc this) !! name in
  if notFoundOrNot iterFind GPDT_MATRIX_4X4 then
    raise (InvalidParametersException
             ("Cannot find matrix (4x4) parameter with the name '" +:+ name +:+ "'"))
  else
    d ← deref iterFind;
    modify (fun _ => GpuParamMat4 d (mInternalData this)).

(** [getParam<T>]: overload resolution picks the specialisation of [T]. *)
Definition getParam (T : ElemType) : GpuParams -> string -> Op (TGpuDataParam T) unit :=
  match T with
  | T_float => getParam_float
  | T_Vector2 => getParam_Vector2
  | T_Vector3 => getParam_Vector3
  | T_Vector4 => getParam_Vector4
  | T_Matrix3 => getParam_Matrix3
  | T_Matrix4 => getParam_Matrix4
  | T_other n => getParam_primary n
  end.

(** The element types with a specialisation, and the stored type tag that
    matches each. *)
Definition supported (T : ElemType) : Prop :=
  match T with T_other _ => False | _ => True end.

Definition storedTypeOf (T : ElemType) : GpuParamDataType :=
  match T with
  | T_float => GPDT_FLOAT1
  | T_Vector2 => GPDT_FLOAT2
  | T_Vector3 => GPDT_FLOAT3
  | T_Vector4 => GPDT_FLOAT4
  | T_Matrix3 => GPDT_MATRIX_3X3
  | T_Matrix4 => GPDT_MATRIX_4X4
  | T_other n => GPDT_OTHER n
  end.

(** The call was rejected with an invalid-parameter exception and [output] was
    not assigned. *)
Definition rejected {T} (o : outcome (TGpuDataParam T) unit)
    (output : TGpuDataParam T) : Prop :=
  exists msg, o = Raised (InvalidParametersException msg) output.

End BsGpuParams.

(** * BsGpuPipelineState.h *)

Module BsGpuPipelineState.

Section TGpuPipelineStateTypes.

(** The typedefs of [TGpuPipelineStateTypes<Core>]: the pointee types of the
    simulation-thread ([Core = false]) or core-thread ([Core = true]) view. *)
Variables BlendStateType RasterizerStateType DepthStencilStateType : Type.
Variable GpuProgramType : Type.
Variable GpuPipelineParamInfoType : Type.

(** [PIPELINE_STATE_DESC] and [PIPELINE_STATE_CORE_DESC]: three fixed-function
    state pointers and five shader-stage program pointers. *)
Record StateDescType : Type := {
  blendState : option BlendStateType;
  rasterizerState : option RasterizerStateType;
  depthStencilState : option DepthStencilStateType;
  vertexProgram : option GpuProgramType;
  fragmentProgram : option GpuProgramType;
  geometryProgram : option GpuProgramType;
  hullProgram : option GpuProgramType;
  domainProgram : option GpuProgramType
}.

Record TGraphicsPipelineState : Type := {
  mData : StateDescType;
  mParamInfo : option GpuPipelineParamInfoType
}.

(** [p != nullptr] *)
Definition notNull {A} (p : option A) : bool :=
  match p with Some _ => true | None => false end.

Definition hasVertexProgram (this : TGraphicsPipelineState) : bool :=
  notNull (vertexProgram (mData this)).
Definition hasFragmentProgram (this : TGraphicsPipelineState) : bool :=
  notNull (fragmentProgram (mData this)).
Definition hasGeometryProgram (this : TGraphicsPipelineState) : bool :=
  notNull (geometryProgram (mData this)).
Definition hasHullProgram (this : TGraphicsPipelineState) : bool :=
  notNull (hullProgram (mData this)).
Definition hasDomainProgram (this : TGraphicsPipelineState) : bool :=
  notNull (domainProgram (mData this)).

Definition getBlendState (this : TGraphicsPipelineState) := blendState (mData this).
Definition getRasterizerState (this : TGraphicsPipelineState) := rasterizerState (mData this).
Definition getDepthStencilState (this : TGraphicsPipelineState) := depthStencilState (mData this).

Definition getVertexProgram (this : TGraphicsPipelineState) := vertexProgram (mData this).
Definition getFragmentProgram (this : TGraphicsPipelineState) := fragmentProgram (mData this).
Definition getGeometryProgram (this : TGraphicsPipelineState) := geometryProgram (mData this).
Definition getHullProgram (this : TGraphicsPipelineState) := hullProgram (mData this).
Definition getDomainProgram (this : TGraphicsPipelineState) := domainProgram (mData this).

Definition getParamInfo (this : TGraphicsPipelineState) := mParamInfo this.

(** The parameter-info factory the constructors call on the five stage
    programs; it belongs to a class outside the given sources. *)
Variable createParamInfo :
  option GpuProgramType -> option GpuProgramType -> option GpuProgramType ->
  option GpuProgramType -> option GpuProgramType -> GpuPipelineParamInfoType.

(** Modelled from the spec: the constructor [TGraphicsPipelineState(desc)] is
    declared here and defined outside the given sources.  "Construction is the
    only mutation point": the descriptor is stored as it is given, nothing is
    validated at construction, and the parameter-info object is derived from
    the stage programs. *)
Definition TGraphicsPipelineState_new (desc : StateDescType)
    : result TGraphicsPipelineState :=
  Ok {| mData := desc;
        mParamInfo := Some (createParamInfo (vertexProgram desc) (fragmentProgram desc)
                              (geometryProgram desc) (hullProgram desc)
                              (domainProgram desc)) |}.

(** No shader-stage program is set in the descriptor. *)
Definition noProgramsSet (desc : StateDescType) : Prop :=
  vertexProgram desc = None /\ fragmentProgram desc = None /\
  geometryProgram desc = None /\ hullProgram desc = None /\
  domainProgram desc = None.

End TGpuPipelineStateTypes.

Arguments Build_StateDescType {_ _ _ _} _ _ _ _ _ _ _ _.
Arguments Build_TGraphicsPipelineState {_ _ _ _ _} _ _.
Arguments blendState {_ _ _ _} _.
Arguments rasterizerState {_ _ _ _} _.
Arguments depthStencilState {_ _ _ _} _.
Arguments vertexProgram {_ _ _ _} _.
Arguments fragmentProgram {_ _ _ _} _.
Arguments geometryProgram {_ _ _ _} _.
Arguments hullProgram {_ _ _ _} _.
Arguments domainProgram {_ _ _ _} _.
Arguments mData {_ _ _ _ _} _.
Arguments mParamInfo {_ _ _ _ _} _.
Arguments hasVertexProgram {_ _ _ _ _} _.
Arguments hasFragmentProgram {_ _ _ _ _} _.
Arguments hasGeometryProgram {_ _ _ _ _} _.
Arguments hasHullProgram {_ _ _ _ _} _.
Arguments hasDomainProgram {_ _ _ _ _} _.
Arguments TGraphicsPipelineState_new {_ _ _ _ _} _ _.
Arguments noProgramsSet {_ _ _ _} _.

End BsGpuPipelineState.

(** * Device buffers *)

Module HardwareBuffer.

Abbreviation byte := Byte.byte.

(** [memcpy(dst + dstOff, src + srcOff, n)] between two byte regions; a copy
    that reads or writes outside its region is undefined. *)
Definition memcpy (dst : list byte) (dstOff : N) (src : list byte) (srcOff n : N)
    : option (list byte) :=
  if bool_decide (srcOff + n <= N.of_nat (length src)) &&
     bool_decide (dstOff + n <= N.of_nat (length dst))
  then Some (take (N.to_nat dstOff) dst
               ++ take (N.to_nat n) (drop (N.to_nat srcOff) src)
               ++ drop (N.to_nat (dstOff + n)) dst)
  else None.

Inductive IndexType : Type := IT_16BIT | IT_32BIT.

#[global] Instance IndexType_eq_dec : EqDecision IndexType.
Proof. solve_decision. Defined.

Inductive GpuBufferUsage : Type := GBU_STATIC | GBU_DYNAMIC.

Inductive GpuLockOptions : Type :=
  | GBL_READ_WRITE | GBL_WRITE_ONLY_DISCARD | GBL_READ_ONLY | GBL_WRITE_ONLY_NO_OVERWRITE.

(** [sizeof(UINT16)] or [sizeof(UINT32)] *)
Definition indexSizeOf (t : IndexType) : N :=
  match t with IT_16BIT => 2 | IT_32BIT => 4 end.

(** Modelled from the spec: the device buffer backend is an external
    collaborator; its buffers "expose lock(mode)->byte pointer, unlock(),
    getNumVertices/getVertexSize/getType".  A buffer is its creation parameters
    and its storage. *)
Record IndexBuffer : Type := {
  ib_type : IndexType;
  ib_numIndexes : N;
  ib_usage : GpuBufferUsage;
  ib_storage : list byte
}.

Record VertexBuffer : Type := {
  vb_vertexSize : N;
  vb_numVertices : N;
  vb_usage : GpuBufferUsage;
  vb_storage : list byte
}.

Definition zeros (n : N) : list byte := replicate (N.to_nat n) Byte.x00.

(** Modelled from the spec: [createIndexBuffer(type, count, usage)] gives a
    buffer "sized to total index count", [createVertexBuffer(vertexSize, count,
    usage)] one of [count] vertices of [vertexSize] bytes. *)
Definition createIndexBuffer (itype : IndexType) (numIndexes : N)
    (usage : GpuBufferUsage) : IndexBuffer :=
  {| ib_type := itype; ib_numIndexes := numIndexes; ib_usage := usage;
     ib_storage := zeros (u32 (indexSizeOf itype * numIndexes)) |}.

Definition createVertexBuffer (vertexSize numVerts : N)
    (usage : GpuBufferUsage) : VertexBuffer :=
  {| vb_vertexSize := vertexSize; vb_numVertices := numVerts; vb_usage := usage;
     vb_storage := zeros (u32 (vertexSize * numVerts)) |}.

Definition getType (b : IndexBuffer) : IndexType := ib_type b.
Definition getIndexSize (b : IndexBuffer) : N := indexSizeOf (ib_type b).
Definition getVertexSize (b : VertexBuffer) : N := vb_vertexSize b.
Definition getNumVertices (b : VertexBuffer) : N := vb_numVertices b.

(** [lock(options)]: the storage the returned pointer gives access to; a
    write-discard lock gives fresh storage of the same size. *)
Definition lockStorage (storage : list byte) (options : GpuLockOptions) : list byte :=
  match options with
  | GBL_WRITE_ONLY_DISCARD => zeros (N.of_nat (length storage))
  | _ => storage
  end.

Definition lockIndexBuffer (b : IndexBuffer) (options : GpuLockOptions) : list byte :=
  lockStorage (ib_storage b) options.
Definition lockVertexBuffer (b : VertexBuffer) (options : GpuLockOptions) : list byte :=
  lockStorage (vb_storage b) options.

(** [unlock()]: what was written through the locked pointer is the storage. *)
Definition unlockIndexBuffer (locked : list byte) (b : IndexBuffer) : IndexBuffer :=
  {| ib_type := ib_type b; ib_numIndexes := ib_numIndexes b; ib_usage := ib_usage b;
     ib_storage := locked |}.
Definition unlockVertexBuffer (locked : list byte) (b : VertexBuffer) : VertexBuffer :=
  {| vb_vertexSize := vb_vertexSize b; vb_numVertices := vb_numVertices b;
     vb_usage := vb_usage b; vb_storage := locked |}.

End HardwareBuffer.

(** * CmIndexData.h *)

Module CmIndexData.
Import HardwareBuffer.

Record IndexData : Type := {
  indexBuffer : option IndexBuffer;
  indexStart : N;
  indexCount : N
}.

(** [IndexData()]: no buffer, an empty range. *)
Definition IndexData_new : IndexData :=
  {| indexBuffer := None; indexStart := 0; indexCount := 0 |}.

Definition set_indexCount (n : N) (d : IndexData) : IndexData :=
  {| indexBuffer := indexBuffer d; indexStart := indexStart d; indexCount := n |}.
Definition set_indexBuffer (b : option IndexBuffer) (d : IndexData) : IndexData :=
  {| indexBuffer := b; indexStart := indexStart d; indexCount := indexCount d |}.

End CmIndexData.

(** * Vertex declaration and vertex data *)

Module CmVertexData.
Import HardwareBuffer.

Inductive VertexElementType : Type :=
  | VET_FLOAT1 | VET_FLOAT2 | VET_FLOAT3 | VET_FLOAT4
  | VET_COLOR | VET_SHORT2 | VET_SHORT4 | VET_UBYTE4.

Inductive VertexElementSemantic : Type :=
  | VES_POSITION | VES_BLEND_WEIGHTS | VES_BLEND_INDICES | VES_NORMAL
  | VES_COLOR | VES_TEXCOORD | VES_BITANGENT | VES_TANGENT.

#[global] Instance VertexElementType_eq_dec : EqDecision VertexElementType.
Proof. solve_decision. Defined.
#[global] Instance VertexElementSemantic_eq_dec : EqDecision VertexElementSemantic.
Proof. solve_decision. Defined.

(** Size in bytes of one element of the given type. *)
Definition getTypeSize (t : VertexElementType) : N :=
  match t with
  | VET_FLOAT1 => 4 | VET_FLOAT2 => 8 | VET_FLOAT3 => 12 | VET_FLOAT4 => 16
  | VET_COLOR => 4 | VET_SHORT2 => 4 | VET_SHORT4 => 8 | VET_UBYTE4 => 4
  end.

(** Modelled from the spec: [VertexElement], [VertexDeclaration] and
    [VertexData] are declared outside the given sources.  An element is what
    CmMesh.cpp reads from it (type, semantic, semantic index, offset, size) and
    the stream it belongs to; vertex data is "{vertexCount, declaration,
    per-stream buffer map}". *)
Record VertexElement : Type := {
  ve_streamIdx : N;
  ve_offset : N;
  ve_type : VertexElementType;
  ve_semantic : VertexElementSemantic;
  ve_semanticIdx : N
}.

#[global] Instance VertexElement_eq_dec : EqDecision VertexElement.
Proof. solve_decision. Defined.

Definition getStreamIdx (e : VertexElement) : N := ve_streamIdx e.
Definition getOffset (e : VertexElement) : N := ve_offset e.
Definition getElemType (e : VertexElement) : VertexElementType := ve_type e.
Definition getSemantic (e : VertexElement) : VertexElementSemantic := ve_semantic e.
Definition getSemanticIdx (e : VertexElement) : N := ve_semanticIdx e.
Definition getSize (e : VertexElement) : N := getTypeSize (ve_type e).

(** Bytes one vertex takes in stream [streamIdx], for a list of elements. *)
Definition strideOf (elems : list VertexElement) (streamIdx : N) : N :=
  u32 (foldr N.add 0
         (getSize <$> filter (fun e => ve_streamIdx e = streamIdx) elems)).

Record VertexDeclaration : Type := {
  mElementList : list VertexElement
}.

Definition getElementCount (d : VertexDeclaration) : N :=
  N.of_nat (length (mElementList d)).
Definition getElement (d : VertexDeclaration) (j : N) : option VertexElement :=
  mElementList d !! N.to_nat j.
Definition getDeclVertexSize (d : VertexDeclaration) (source : N) : N :=
  strideOf (mElementList d) source.

Record VertexData : Type := {
  vertexCount : N;
  vertexDeclaration : option VertexDeclaration;
  mVertexBuffers : list (N * VertexBuffer)
}.

(** [VertexData()]: no declaration, no buffer bound. *)
Definition VertexData_new : VertexData :=
  {| vertexCount := 0; vertexDeclaration := None; mVertexBuffers := [] |}.

Definition set_vertexCount (n : N) (d : VertexData) : VertexData :=
  {| vertexCount := n; vertexDeclaration := vertexDeclaration d;
     mVertexBuffers := mVertexBuffers d |}.
Definition set_vertexDeclaration (p : option VertexDeclaration) (d : VertexData)
    : VertexData :=
  {| vertexCount := vertexCount d; vertexDeclaration := p;
     mVertexBuffers := mVertexBuffers d |}.

(** The buffer map, kept in ascending order of stream index, which is the
    order its iteration visits. *)
Fixpoint bindBuffer (index : N) (b : VertexBuffer) (m : list (N * VertexBuffer))
    : list (N * VertexBuffer) :=
  match m with
  | [] => [(index, b)]
  | (k, b') :: rest =>
      if bool_decide (index < k) then (index, b) :: (k, b') :: rest
      else if bool_decide (index = k) then (index, b) :: rest
      else (k, b') :: bindBuffer index b rest
  end.

Definition setBuffer (index : N) (b : VertexBuffer) (d : VertexData) : VertexData :=
  {| vertexCount := vertexCount d; vertexDeclaration := vertexDeclaration d;
     mVertexBuffers := bindBuffer index b (mVertexBuffers d) |}.

Definition getBuffers (d : VertexData) : list (N * VertexBuffer) := mVertexBuffers d.

End CmVertexData.

(** * The mesh-data container *)

Module CmMeshData.
Import HardwareBuffer CmVertexData.

Inductive DrawOperationType : Type :=
  | DOT_POINT_LIST | DOT_LINE_LIST | DOT_LINE_STRIP
  | DOT_TRIANGLE_LIST | DOT_TRIANGLE_STRIP | DOT_TRIANGLE_FAN.

#[global] Instance DrawOperationType_eq_dec : EqDecision DrawOperationType.
Proof. solve_decision. Defined.

(** Modelled from the spec: the class [MeshData] is declared and defined
    outside the given sources.  It is the "opaque mesh-data container" that
    "must expose per-submesh index range/draw-op, per-stream raw byte pointers
    and sizes, index element size/type, and a vertex-declaration builder
    (beginDesc/addVertElem/addSubMesh/endDesc)".  The container holds its
    description (vertex count, index type, vertex elements, one entry per
    submesh) and its raw bytes: one region of index bytes, the submeshes one
    after the other, and one region per vertex stream. *)
Record IndexElementData : Type := {
  ied_numIndices : N;
  ied_drawOp : DrawOperationType
}.

Record MeshData : Type := {
  md_numVertices : N;
  md_indexType : IndexType;
  md_vertexElements : list VertexElement;
  md_subMeshes : list IndexElementData;
  md_indexBytes : list byte;
  md_streamBytes : list (list byte)
}.

(** A byte pointer into the container: into the index region, or into the
    region of one stream. *)
Inductive BytePtr : Type :=
  | IndexBytesAt (offset : N)
  | StreamBytesAt (streamIdx : N) (offset : N).

Definition sumN (l : list N) : N := foldr N.add 0 l.

Definition getNumSubmeshes (d : MeshData) : N := N.of_nat (length (md_subMeshes d)).

Definition getNumIndices_sub (d : MeshData) (subMesh : N) : N :=
  match md_subMeshes d !! N.to_nat subMesh with
  | Some e => ied_numIndices e
  | None => 0
  end.

Definition getDrawOp (d : MeshData) (subMesh : N) : DrawOperationType :=
  match md_subMeshes d !! N.to_nat subMesh with
  | Some e => ied_drawOp e
  | None => DOT_TRIANGLE_LIST
  end.

(** Total number of indices, over all submeshes. *)
Definition getNumIndices (d : MeshData) : N :=
  u32 (sumN (ied_numIndices <$> md_subMeshes d)).

(** Where the index range of a submesh starts, counted in indices (the mesh
    scales it by the index element size when it reads back): the submeshes
    before it come first. *)
Definition getIndexBufferOffset (d : MeshData) (subMesh : N) : N :=
  u32 (sumN (ied_numIndices <$> take (N.to_nat subMesh) (md_subMeshes d))).

Definition getIndexType (d : MeshData) : IndexType := md_indexType d.
Definition getIndexElementSize (d : MeshData) : N := indexSizeOf (md_indexType d).
Definition getIndexBufferSize (d : MeshData) : N :=
  u32 (getNumIndices d * getIndexElementSize d).

(** The index bytes, and the first index of one submesh as a [UINT16*] or a
    [UINT32*]: the same place, whatever the pointer type. *)
Definition getIndexData (d : MeshData) : BytePtr := IndexBytesAt 0.
Definition getIndices16 (d : MeshData) (subMesh : N) : BytePtr :=
  IndexBytesAt (u32 (getIndexBufferOffset d subMesh * getIndexElementSize d)).
Definition getIndices32 (d : MeshData) (subMesh : N) : BytePtr :=
  IndexBytesAt (u32 (getIndexBufferOffset d subMesh * getIndexElementSize d)).

Definition getNumVertices (d : MeshData) : N := md_numVertices d.

Definition getMaxStreamIdx (d : MeshData) : N :=
  foldr N.max 0 (ve_streamIdx <$> md_vertexElements d).

Definition hasStream (d : MeshData) (streamIdx : N) : bool :=
  existsb (fun e => bool_decide (ve_streamIdx e = streamIdx)) (md_vertexElements d).

Definition getVertexStride (d : MeshData) (streamIdx : N) : N :=
  strideOf (md_vertexElements d) streamIdx.

Definition getStreamSize (d : MeshData) (streamIdx : N) : N :=
  u32 (getVertexStride d streamIdx * md_numVertices d).

Definition getStreamData (d : MeshData) (streamIdx : N) : BytePtr :=
  StreamBytesAt streamIdx 0.

(** The declaration of the container's elements, each at the offset its
    predecessors of the same stream leave. *)
Fixpoint assignOffsets (before elems : list VertexElement) : list VertexElement :=
  match elems with
  | [] => []
  | e :: rest =>
      {| ve_streamIdx := ve_streamIdx e;
         ve_offset := strideOf before (ve_streamIdx e);
         ve_type := ve_type e; ve_semantic := ve_semantic e;
         ve_semanticIdx := ve_semanticIdx e |}
      :: assignOffsets (before ++ [e]) rest
  end.

Definition createDeclaration (d : MeshData) : option VertexDeclaration :=
  Some {| mElementList := assignOffsets [] (md_vertexElements d) |}.

(** The region a pointer points into, and the offset it has there. *)
Definition regionOf (d : MeshData) (p : BytePtr) : option (list byte * N) :=
  match p with
  | IndexBytesAt off => Some (md_indexBytes d, off)
  | StreamBytesAt i off => r ← md_streamBytes d !! N.to_nat i; Some (r, off)
  end.

Definition set_indexBytes (bytes : list byte) (d : MeshData) : MeshData :=
  {| md_numVertices := md_numVertices d; md_indexType := md_indexType d;
     md_vertexElements := md_vertexElements d; md_subMeshes := md_subMeshes d;
     md_indexBytes := bytes; md_streamBytes := md_streamBytes d |}.

Definition set_streamBytes (streams : list (list byte)) (d : MeshData) : MeshData :=
  {| md_numVertices := md_numVertices d; md_indexType := md_indexType d;
     md_vertexElements := md_vertexElements d; md_subMeshes := md_subMeshes d;
     md_indexBytes := md_indexBytes d; md_streamBytes := streams |}.

Definition set_vertexElements (elems : list VertexElement) (d : MeshData) : MeshData :=
  {| md_numVertices := md_numVertices d; md_indexType := md_indexType d;
     md_vertexElements := elems; md_subMeshes := md_subMeshes d;
     md_indexBytes := md_indexBytes d; md_streamBytes := md_streamBytes d |}.

Definition set_subMeshes (subMeshes : list IndexElementData) (d : MeshData) : MeshData :=
  {| md_numVertices := md_numVertices d; md_indexType := md_indexType d;
     md_vertexElements := md_vertexElements d; md_subMeshes := subMeshes;
     md_indexBytes := md_indexBytes d; md_streamBytes := md_streamBytes d |}.

(** [memcpy(p, src + srcOff, n)] with [p] a pointer into the container. *)
Definition memcpyInto (d : MeshData) (p : BytePtr) (src : list byte) (srcOff n : N)
    : option MeshData :=
  match p with
  | IndexBytesAt off =>
      bytes ← memcpy (md_indexBytes d) off src srcOff n;
      Some (set_indexBytes bytes d)
  | StreamBytesAt i off =>
      r ← md_streamBytes d !! N.to_nat i;
      bytes ← memcpy r off src srcOff n;
      Some (set_streamBytes (<[N.to_nat i := bytes]> (md_streamBytes d)) d)
  end.

(** [memcpy(dst, p, n)] with [p] a pointer into the container. *)
Definition memcpyFrom (dst : list byte) (d : MeshData) (p : BytePtr) (n : N)
    : option (list byte) :=
  '(r, off) ← regionOf d p; memcpy dst 0 r off n.

(** The description builder. *)
Definition MeshData_new (numVertices : N) (indexType : IndexType) : MeshData :=
  {| md_numVertices := numVertices; md_indexType := indexType;
     md_vertexElements := []; md_subMeshes := [];
     md_indexBytes := []; md_streamBytes := [] |}.

Definition beginDesc (d : MeshData) : MeshData :=
  set_subMeshes [] (set_vertexElements [] d).

Definition addVertElem (type : VertexElementType) (semantic : VertexElementSemantic)
    (semanticIdx streamIdx : N) (d : MeshData) : MeshData :=
  set_vertexElements
    (md_vertexElements d ++
     [{| ve_streamIdx := streamIdx; ve_offset := 0; ve_type := type;
         ve_semantic := semantic; ve_semanticIdx := semanticIdx |}]) d.

Definition noSubMesh : IndexElementData :=
  {| ied_numIndices := 0; ied_drawOp := DOT_TRIANGLE_LIST |}.

(** [addSubMesh(numIndices, subMesh, drawOp = DOT_TRIANGLE_LIST)]: the entry
    of submesh [subMesh], the list growing to hold it. *)
Definition addSubMesh (numIndices subMesh : N) (drawOp : DrawOperationType)
    (d : MeshData) : MeshData :=
  let grown := md_subMeshes d ++
               replicate (N.to_nat (subMesh + 1) - length (md_subMeshes d)) noSubMesh in
  set_subMeshes
    (<[N.to_nat subMesh := {| ied_numIndices := numIndices; ied_drawOp := drawOp |}]> grown)
    d.

(** [endDesc()] allocates the regions the description asks for. *)
Definition endDesc (d : MeshData) : MeshData :=
  set_streamBytes
    ((fun i => zeros (getStreamSize d i)) <$> range (getMaxStreamIdx d + 1))
    (set_indexBytes (zeros (getIndexBufferSize d)) d).

(** The regions of a container have the sizes its description asks for, as
    [endDesc] leaves them. *)
Definition wellSized (d : MeshData) : Prop :=
  N.of_nat (length (md_indexBytes d)) = getIndexBufferSize d /\
  (N.of_nat <$> (length <$> md_streamBytes d)) =
    (getStreamSize d <$> range (getMaxStreamIdx d + 1)).

#[global] Instance wellSized_dec d : Decision (wellSized d).
Proof. unfold wellSized. apply _. Defined.

End CmMeshData.

(** * CmMesh.cpp *)

Module CmMesh.
Import HardwareBuffer CmIndexData CmVertexData CmMeshData.

#[global] Instance result_ret : MRet result := fun A a => Ok a.
#[global] Instance result_bind : MBind result := fun A B k r => rbind r k.

(** A copy that leaves its region is undefined. *)
Definition orUndefined {S A} (o : option A) : Op S A :=
  match o with Some a => ret a | None => undefined end.

(** [for] over a [const] accumulator-passing body. *)
Fixpoint rfoldl {A I} (body : A -> I -> result A) (a : A) (idxs : list I) : result A :=
  match idxs with
  | [] => Ok a
  | i :: rest => a' ← body a i; rfoldl body a' rest
  end.

(** Run-time type ids; CmMesh.cpp names the one of mesh data. *)
Inductive TypeId : Type :=
  | TID_MeshData
  | TID_other (n : N).

#[global] Instance TypeId_eq_dec : EqDecision TypeId.
Proof. solve_decision. Defined.

(** [GpuResourceData]: the opaque data container, which is a [MeshData] or
    an object of another class. *)
Inductive GpuResourceData : Type :=
  | GRD_MeshData (d : MeshData)
  | GRD_other (n : N) (payload : list byte).

Definition getTypeId (data : GpuResourceData) : TypeId :=
  match data with
  | GRD_MeshData _ => TID_MeshData
  | GRD_other n _ => TID_other n
  end.

(** [static_cast<MeshData&>(data)] *)
Definition static_cast_MeshData {S} (data : GpuResourceData) : Op S MeshData :=
  match data with
  | GRD_MeshData d => ret d
  | GRD_other _ _ => undefined
  end.

(** [SubMesh(indexOffset, indexCount, drawOp)] *)
Record SubMesh : Type := {
  indexOffset : N;
  indexCount : N;
  drawOp : DrawOperationType
}.

Record Mesh : Type := {
  mVertexData : option VertexData;
  mIndexData : option IndexData;
  mSubMeshes : list SubMesh
}.

(** [Mesh::Mesh()] *)
Definition Mesh_new : Mesh :=
  {| mVertexData := None; mIndexData := None; mSubMeshes := [] |}.

Definition set_mVertexData (p : option VertexData) (this : Mesh) : Mesh :=
  {| mVertexData := p; mIndexData := mIndexData this; mSubMeshes := mSubMeshes this |}.
Definition set_mIndexData (p : option IndexData) (this : Mesh) : Mesh :=
  {| mVertexData := mVertexData this; mIndexData := p; mSubMeshes := mSubMeshes this |}.
Definition set_mSubMeshes (l : list SubMesh) (this : Mesh) : Mesh :=
  {| mVertexData := mVertexData this; mIndexData := mIndexData this; mSubMeshes := l |}.
Definition push_back (s : SubMesh) (this : Mesh) : Mesh :=
  set_mSubMeshes (mSubMeshes this ++ [s]) this.

Record RenderOpMesh : Type := {
  indexData : option IndexData;
  vertexData : option VertexData;
  useIndexes : bool;
  operationType : DrawOperationType
}.

(** [mIndexData->...] and [mVertexData->...]: the pointee read, or updated in
    place, through the mesh's pointer. *)
Definition theIndexData : Op Mesh IndexData :=
  this ← get; deref (mIndexData this).
Definition onIndexData (f : IndexData -> IndexData) : Op Mesh unit :=
  d ← theIndexData; modify (set_mIndexData (Some (f d))).
Definition theVertexData : Op Mesh VertexData :=
  this ← get; deref (mVertexData this).
Definition onVertexData (f : VertexData -> VertexData) : Op Mesh unit :=
  d ← theVertexData; modify (set_mVertexData (Some (f d))).

Section CoreThread.

(** Whether the calling thread is the core (render) thread. *)
Variable onCoreThread : bool.

(** Modelled from the spec: the macro is defined outside the given sources;
    a "device-mutating call made off the render thread" is a "fatal
    precondition failure". *)
Definition THROW_IF_NOT_CORE_THREAD {S} : Op S unit :=
  if onCoreThread then ret tt
  else raise (InternalErrorException
                "This method can only be accessed from the core thread.").

(** The block of [writeSubresource] under [// Submeshes]. *)
Definition writeSubMeshes (meshData : MeshData) : Op Mesh unit :=
  modify (set_mSubMeshes []);;
  for_each (range (getNumSubmeshes meshData)) (fun i =>
    let numIndices := getNumIndices_sub meshData i in
    if bool_decide (0 < numIndices) then
      modify (push_back {| indexOffset := getIndexBufferOffset meshData i;
                           indexCount := numIndices;
                           drawOp := getDrawOp meshData i |})
    else ret tt).

(** The block of [writeSubresource] under [// Indices]. *)
Definition writeIndices (meshData : MeshData) : Op Mesh unit :=
  modify (set_mIndexData (Some IndexData_new));;
  onIndexData (set_indexCount (getNumIndices meshData));;
  created ← theIndexData;
  onIndexData (set_indexBuffer
                 (Some (createIndexBuffer (getIndexType meshData)
                          (CmIndexData.indexCount created) GBU_STATIC)));;
  created ← theIndexData;
  buffer ← deref (indexBuffer created);
  let idxData := lockIndexBuffer buffer GBL_WRITE_ONLY_DISCARD in
  let idxElementSize := getIndexElementSize meshData in
  let indicesSize := getIndexBufferSize meshData in
  let srcIdxData := getIndexData meshData in
  idxData ← orUndefined (memcpyFrom idxData meshData srcIdxData indicesSize);
  onIndexData (set_indexBuffer (Some (unlockIndexBuffer idxData buffer))).

(** The body of the loop over the streams [i <= getMaxStreamIdx()]. *)
Definition writeVertexStream (meshData : MeshData) (i : N) : Op Mesh unit :=
  if negb (hasStream meshData i) then ret tt
  else
    let streamSize := getStreamSize meshData i in
    created ← theVertexData;
    declaration ← deref (vertexDeclaration created);
    let vertexBuffer :=
      createVertexBuffer (getDeclVertexSize declaration i)
        (vertexCount created) GBU_STATIC in
    onVertexData (setBuffer i vertexBuffer);;
    let srcVertBufferData := getStreamData meshData i in
    let vertBufferData := lockVertexBuffer vertexBuffer GBL_WRITE_ONLY_DISCARD in
    let bufferSize := getStreamSize meshData i in
    vertBufferData ←
      orUndefined (memcpyFrom vertBufferData meshData srcVertBufferData bufferSize);
    (* the copy went to the storage of the buffer bound to stream [i] *)
    onVertexData (setBuffer i (unlockVertexBuffer vertBufferData vertexBuffer)).

(** The block of [writeSubresource] under [// Vertices]. *)
Definition writeVertices (meshData : MeshData) : Op Mesh unit :=
  modify (set_mVertexData (Some VertexData_new));;
  onVertexData (set_vertexCount (getNumVertices meshData));;
  onVertexData (set_vertexDeclaration (createDeclaration meshData));;
  for_each (range (getMaxStreamIdx meshData + 1)) (writeVertexStream meshData).

Definition writeSubresource (subresourceIdx : N) (data : GpuResourceData)
    : Op Mesh unit :=
  THROW_IF_NOT_CORE_THREAD;;
  if negb (bool_decide (getTypeId data = TID_MeshData)) then
    raise (InvalidParametersException
             "Invalid GpuResourceData type. Only MeshData is supported.")
  else
    meshData ← static_cast_MeshData data;
    writeSubMeshes meshData;;
    writeIndices meshData;;
    writeVertices meshData.

(** [readSubresource] mutates its [data] argument: the state of the operation
    is the mesh together with the container. *)
Definition theMeshData : Op (Mesh * GpuResourceData) MeshData :=
  s ← get; static_cast_MeshData (snd s).

(** [memcpy(dest, src + srcOff, n)] with [dest] a pointer into [data]. *)
Definition copyIntoData (dest : BytePtr) (src : list byte) (srcOff n : N)
    : Op (Mesh * GpuResourceData) unit :=
  meshData ← theMeshData;
  meshData ← orUndefined (memcpyInto meshData dest src srcOff n);
  modify (fun s => (fst s, GRD_MeshData meshData)).

(** The body of the loop over the submeshes [i < mSubMeshes.size()]. *)
Definition readSubMeshIndices (this : Mesh) (indexType : IndexType)
    (idxData : list byte) (idxElemSize : N) (i : N)
    : Op (Mesh * GpuResourceData) unit :=
  meshData ← theMeshData;
  let indices :=
    if bool_decide (indexType = IT_16BIT) then getIndices16 meshData i
    else getIndices32 meshData i in
  subMesh ← deref (mSubMeshes this !! N.to_nat i);
  copyIntoData indices idxData
    (u32 (indexOffset subMesh * idxElemSize))
    (u32 (indexCount subMesh * idxElemSize)).

(** The body of the loop over the vertex buffers; [streamIdx] is the running
    counter, the key of the buffer in the map is not looked at. *)
Definition readVertexStream (visit : N * (N * VertexBuffer))
    : Op (Mesh * GpuResourceData) unit :=
  let streamIdx := visit.1 in
  let vertexBuffer := visit.2.2 in
  let bufferSize :=
    u32 (getVertexSize vertexBuffer * HardwareBuffer.getNumVertices vertexBuffer) in
  let vertDataPtr := lockVertexBuffer vertexBuffer GBL_READ_ONLY in
  meshData ← theMeshData;
  let dest := getStreamData meshData streamIdx in
  copyIntoData dest vertDataPtr 0 bufferSize.

Definition readSubresource (subresourceIdx : N) : Op (Mesh * GpuResourceData) unit :=
  THROW_IF_NOT_CORE_THREAD;;
  s ← get;
  let this := fst s in
  let data := snd s in
  if negb (bool_decide (getTypeId data = TID_MeshData)) then
    raise (InvalidParametersException
             "Invalid GpuResourceData type. Only MeshData is supported.")
  else
    indexType ← match mIndexData this with
                | Some held => buffer ← deref (indexBuffer held); ret (getType buffer)
                | None => ret IT_32BIT
                end;
    match mIndexData this with
    | Some held =>
        buffer ← deref (indexBuffer held);
        let idxData := lockIndexBuffer buffer GBL_READ_ONLY in
        let idxElemSize := getIndexSize buffer in
        for_each (range (N.of_nat (length (mSubMeshes this))))
          (readSubMeshIndices this indexType idxData idxElemSize)
    | None => ret tt
    end;;
    match mVertexData this with
    | Some held =>
        let vertexBuffers := getBuffers held in
        (* [streamIdx] starts at 0 and counts the buffers visited *)
        for_each (zip (range (N.of_nat (length vertexBuffers))) vertexBuffers)
          readVertexStream
    | None => ret tt
    end.

End CoreThread.

Definition allocateSubresourceBuffer (subresourceIdx : N) (this : Mesh)
    : result MeshData :=
  indexType ← match mIndexData this with
              | Some held => buffer ← rderef (indexBuffer held); Ok (getType buffer)
              | None => Ok IT_32BIT
              end;
  (* [mVertexData->vertexCount], read for the constructor of the container *)
  pointee ← rderef (mVertexData this);
  let meshData := MeshData_new (vertexCount pointee) indexType in
  let meshData := beginDesc meshData in
  meshData ← match mIndexData this with
             | Some _ =>
                 rfoldl (fun meshData i =>
                           subMesh ← rderef (mSubMeshes this !! N.to_nat i);
                           Ok (addSubMesh (indexCount subMesh) i DOT_TRIANGLE_LIST meshData))
                   meshData (range (N.of_nat (length (mSubMeshes this))))
             | None => Ok meshData
             end;
  meshData ← match mVertexData this with
             | Some held =>
                 let vertexBuffers := getBuffers held in
                 (* [streamIdx] starts at 0 and counts the buffers visited *)
                 rfoldl (fun meshData '(streamIdx, (_, vertexBuffer)) =>
                           let vertexSize := getVertexSize vertexBuffer in
                           declaration ← rderef (vertexDeclaration held);
                           let numElements := getElementCount declaration in
                           rfoldl (fun meshData j =>
                                     element ← rderef (getElement declaration j);
                                     let type := getElemType element in
                                     let semantic := getSemantic element in
                                     let semanticIdx := getSemanticIdx element in
                                     let offset := getOffset element in
                                     let elemSize := getSize element in
                                     Ok (addVertElem type semantic semanticIdx streamIdx meshData))
                             meshData (range numElements))
                   meshData (zip (range (N.of_nat (length vertexBuffers))) vertexBuffers)
             | None => Ok meshData
             end;
  Ok (endDesc meshData).

Definition getSubMeshData (subMeshIdx : N) (this : Mesh) : result RenderOpMesh :=
  if bool_decide (subMeshIdx < 0) ||
     bool_decide (N.of_nat (length (mSubMeshes this)) <= subMeshIdx)
  then
    Throw (InvalidParametersException
             ("Invalid sub-mesh index (" +:+ pretty subMeshIdx +:+
              "). Number of sub-meshes available: " +:+
              pretty (N.of_nat (length (mSubMeshes this)))))
  else
    subMesh ← rderef (mSubMeshes this !! N.to_nat subMeshIdx);
    (* TODO - BIG TODO - Completely ignores subMeshIdx and always renders the
       entire thing *)
    Ok {| indexData := mIndexData this;
          vertexData := mVertexData this;
          useIndexes := true;
          operationType := drawOp subMesh |}.

End CmMesh.

(** * Vocabulary of the mesh properties *)

Module MeshSpec.
Import HardwareBuffer CmIndexData CmVertexData CmMeshData CmMesh.

(** Run an operation that takes a data container by reference, and hand the
    container back. *)
Definition withData {A} (data : GpuResourceData)
    (c : Op (Mesh * GpuResourceData) A) : Op Mesh GpuResourceData :=
  fun this =>
    match c (this, data) with
    | Done _ s => Done (snd s) (fst s)
    | Raised e s => Raised e (fst s)
    | UB => UB
    end.

(** [writeSubresource(0, d)], then [readSubresource] into the container
    [allocateSubresourceBuffer(0)] returns, all on the core thread. *)
Definition writeThenRead (d : MeshData) : Op Mesh GpuResourceData :=
  writeSubresource true 0 (GRD_MeshData d);;
  buffer ← liftR (allocateSubresourceBuffer 0);
  withData (GRD_MeshData buffer) (readSubresource true 0).

(** The layout of one stream of a container or of a declaration: the elements
    of that stream, in order, as (type, semantic, semantic index). *)
Definition layoutOf (elems : list VertexElement) (streamIdx : N)
    : list (VertexElementType * VertexElementSemantic * N) :=
  (fun e => (ve_type e, ve_semantic e, ve_semanticIdx e))
    <$> filter (fun e => ve_streamIdx e = streamIdx) elems.

(** The submeshes the mesh keeps of a container: those with indices. *)
Definition keptSubMeshes (meshData : MeshData) : list SubMesh :=
  (fun i => {| indexOffset := getIndexBufferOffset meshData i;
               indexCount := getNumIndices_sub meshData i;
               drawOp := getDrawOp meshData i |})
    <$> filter (fun i => 0 < getNumIndices_sub meshData i)
          (range (getNumSubmeshes meshData)).

(** [index] is inside [0, submeshCount). *)
Definition inRange (subMeshIdx : N) (this : Mesh) : Prop :=
  0 <= subMeshIdx < N.of_nat (length (mSubMeshes this)).

(** The bundle [getSubMeshData] fills in for a submesh. *)
Definition bundleOf (this : Mesh) (subMesh : SubMesh) : RenderOpMesh :=
  {| indexData := mIndexData this;
     vertexData := mVertexData this;
     useIndexes := true;
     operationType := drawOp subMesh |}.

(** The index data [writeSubresource] installs for a container, if the copy
    stays inside its regions. *)
Definition writtenIndexData (meshData : MeshData) : option IndexData :=
  let buffer :=
    createIndexBuffer (getIndexType meshData) (getNumIndices meshData) GBU_STATIC in
  bytes ← memcpyFrom (lockIndexBuffer buffer GBL_WRITE_ONLY_DISCARD) meshData
            (getIndexData meshData) (getIndexBufferSize meshData);
  Some {| indexBuffer := Some (unlockIndexBuffer bytes buffer);
          indexStart := 0;
          CmIndexData.indexCount := getNumIndices meshData |}.

(** The vertex data after stream [i] was visited, and after the streams
    [idxs] were. *)
Definition boundStream (meshData : MeshData) (i : N) (held : VertexData)
    : option VertexData :=
  if negb (hasStream meshData i) then Some held
  else
    declaration ← vertexDeclaration held;
    let vertexBuffer :=
      createVertexBuffer (getDeclVertexSize declaration i)
        (vertexCount held) GBU_STATIC in
    bytes ← memcpyFrom (lockVertexBuffer vertexBuffer GBL_WRITE_ONLY_DISCARD)
              meshData (getStreamData meshData i) (getStreamSize meshData i);
    Some (setBuffer i (unlockVertexBuffer bytes vertexBuffer)
            (setBuffer i vertexBuffer held)).

Fixpoint boundStreams (meshData : MeshData) (idxs : list N) (held : VertexData)
    : option VertexData :=
  match idxs with
  | [] => Some held
  | i :: rest => held' ← boundStream meshData i held; boundStreams meshData rest held'
  end.

Definition writtenVertexData (meshData : MeshData) : option VertexData :=
  boundStreams meshData (range (getMaxStreamIdx meshData + 1))
    {| vertexCount := getNumVertices meshData;
       vertexDeclaration := createDeclaration meshData;
       mVertexBuffers := [] |}.

(** The mesh a write of the container leaves, whatever the mesh was. *)
Definition writtenMesh (meshData : MeshData) : option Mesh :=
  held_i ← writtenIndexData meshData;
  held_v ← writtenVertexData meshData;
  Some {| mVertexData := Some held_v; mIndexData := Some held_i;
          mSubMeshes := keptSubMeshes meshData |}.

(** The submesh entries [allocateSubresourceBuffer] asks the builder for: one
    for each submesh of the mesh, with its index count, when the mesh has
    index data. *)
Definition allocatedSubMeshes (this : Mesh) : list IndexElementData :=
  match mIndexData this with
  | Some _ =>
      (fun subMesh => {| ied_numIndices := indexCount subMesh;
                         ied_drawOp := DOT_TRIANGLE_LIST |}) <$> mSubMeshes this
  | None => []
  end.

(** The vertex elements it asks for: every element of the declaration, once
    for each vertex buffer, in the stream numbered by the running counter. *)
Definition allocatedElements (numBuffers : nat) (elems : list VertexElement)
    : list VertexElement :=
  mjoin ((fun streamIdx =>
            (fun e => {| ve_streamIdx := streamIdx; ve_offset := 0;
                         ve_type := ve_type e; ve_semantic := ve_semantic e;
                         ve_semanticIdx := ve_semanticIdx e |}) <$> elems)
           <$> range (N.of_nat numBuffers)).

(** The index type of the mesh's index buffer, or 32 bit without index data. *)
Definition indexTypeOf (this : Mesh) : option IndexType :=
  match mIndexData this with
  | Some held => getType <$> indexBuffer held
  | None => Some IT_32BIT
  end.

(** The container [allocateSubresourceBuffer] returns. *)
Definition allocated (this : Mesh) (held : VertexData) (declaration : VertexDeclaration)
    (indexType : IndexType) : MeshData :=
  endDesc {| md_numVertices := vertexCount held;
             md_indexType := indexType;
             md_vertexElements :=
               allocatedElements (length (getBuffers held)) (mElementList declaration);
             md_subMeshes := allocatedSubMeshes this;
             md_indexBytes := []; md_streamBytes := [] |}.

(** The index ranges follow one another from [start]. *)
Fixpoint contiguous (start : N) (K : list SubMesh) : Prop :=
  match K with
  | [] => True
  | subMesh :: rest =>
      indexOffset subMesh = start /\ contiguous (start + indexCount subMesh) rest
  end.

(** All elements belong to stream [i]. *)
Definition inStream (i : N) (elems : list VertexElement) : Prop :=
  Forall (fun e => ve_streamIdx e = i) elems.

(** The vertex buffers a write binds for a container with all its elements in
    stream 0. *)
Definition singleStreamBuffers (d : MeshData) : list (N * VertexBuffer) :=
  if hasStream d 0 then
    [(0, {| vb_vertexSize := getVertexStride d 0;
            vb_numVertices := md_numVertices d;
            vb_usage := GBU_STATIC;
            vb_storage := default [] (md_streamBytes d !! 0%nat) |})]
  else [].

End MeshSpec.

(** * Sample data *)

Module Samples.
Import HardwareBuffer CmIndexData CmVertexData CmMeshData CmMesh.
Import BsGpuParams.

Definition element (streamIdx : N) (t : VertexElementType)
    (s : VertexElementSemantic) : VertexElement :=
  {| ve_streamIdx := streamIdx; ve_offset := 0; ve_type := t;
     ve_semantic := s; ve_semanticIdx := 0 |}.

(** One submesh of 6 16-bit indices, 4 vertices, one stream of 12 bytes a
    vertex. *)
Definition quad : MeshData :=
  {| md_numVertices := 4; md_indexType := IT_16BIT;
     md_vertexElements := [element 0 VET_FLOAT3 VES_POSITION];
     md_subMeshes := [{| ied_numIndices := 6; ied_drawOp := DOT_TRIANGLE_LIST |}];
     md_indexBytes :=
       [Byte.x00; Byte.x00; Byte.x01; Byte.x00; Byte.x02; Byte.x00;
        Byte.x02; Byte.x00; Byte.x01; Byte.x00; Byte.x03; Byte.x00];
     md_streamBytes :=
       [mjoin (replicate 4
                 [Byte.x10; Byte.x11; Byte.x12; Byte.x13;
                  Byte.x20; Byte.x21; Byte.x22; Byte.x23;
                  Byte.x30; Byte.x31; Byte.x32; Byte.x33])] |}.

(** Position in stream 0, texture coordinate in stream 1; one vertex, one
    point. *)
Definition twoStreams : MeshData :=
  {| md_numVertices := 1; md_indexType := IT_16BIT;
     md_vertexElements :=
       [element 0 VET_FLOAT1 VES_POSITION; element 1 VET_FLOAT1 VES_TEXCOORD];
     md_subMeshes := [{| ied_numIndices := 1; ied_drawOp := DOT_POINT_LIST |}];
     md_indexBytes := [Byte.x01; Byte.x02];
     md_streamBytes :=
       [[Byte.x10; Byte.x11; Byte.x12; Byte.x13];
        [Byte.x20; Byte.x21; Byte.x22; Byte.x23]] |}.

(** Texture coordinate in stream 1, nothing in stream 0; one vertex, one
    point. *)
Definition streamOneOnly : MeshData :=
  {| md_numVertices := 1; md_indexType := IT_16BIT;
     md_vertexElements := [element 1 VET_FLOAT1 VES_TEXCOORD];
     md_subMeshes := [{| ied_numIndices := 1; ied_drawOp := DOT_POINT_LIST |}];
     md_indexBytes := [Byte.x01; Byte.x02];
     md_streamBytes := [[]; [Byte.x20; Byte.x21; Byte.x22; Byte.x23]] |}.

(** Three submeshes, the middle one without indices; 32-bit indices. *)
Definition threeSubMeshes : MeshData :=
  {| md_numVertices := 1; md_indexType := IT_32BIT;
     md_vertexElements := [element 0 VET_FLOAT1 VES_POSITION];
     md_subMeshes :=
       [{| ied_numIndices := 1; ied_drawOp := DOT_POINT_LIST |};
        {| ied_numIndices := 0; ied_drawOp := DOT_LINE_LIST |};
        {| ied_numIndices := 2; ied_drawOp := DOT_LINE_LIST |}];
     md_indexBytes :=
       [Byte.x01; Byte.x00; Byte.x00; Byte.x00;
        Byte.x02; Byte.x00; Byte.x00; Byte.x00;
        Byte.x03; Byte.x00; Byte.x00; Byte.x00];
     md_streamBytes := [[Byte.x10; Byte.x11; Byte.x12; Byte.x13]] |}.

(** The mesh a write of the container leaves, starting from [Mesh()]. *)
Definition meshOf (d : MeshData) : Mesh :=
  match writeSubresource true 0 (GRD_MeshData d) Mesh_new with
  | Done _ this => this
  | _ => Mesh_new
  end.

(** A descriptor set with a [float4] named "tint". *)
Definition tintDesc : GpuParamDataDesc :=
  {| type := GPDT_FLOAT4; paramBlockSlot := 0; cpuMemOffset := 0; arraySize := 1 |}.

Definition tintParams : GpuParams :=
  {| mParamDesc := {| params := {["tint" := tintDesc]} |};
     mInternalData := Some 1 |}.

Definition nullHandle (T : ElemType) : TGpuDataParam T :=
  Build_TGpuDataParam T None None.

End Samples.

(** * CmMesh.cpp: initialisation of the resource *)

Module CmMeshResource.
Import CmMeshData CmMesh.

Section Lifecycle.

(** Whether the calling thread is the core thread. *)
Variable onCoreThread : bool.

(** [*MeshManager::instance().getDummyMeshData()]: the manager and its dummy
    data are outside the given sources; the pointer is taken to be non-null. *)
Variable dummyMeshData : MeshData.

(** The base class [Resource] is outside the given sources: its part of the
    object, and what its [initialize_internal] does to that part. *)
Variable Resource : Type.
Variable Resource_initialize_internal : Op Resource unit.

(** A method of the mesh, and a method of the base class, run on the object. *)
Definition onMesh {A} (c : Op Mesh A) : Op (Resource * Mesh) A :=
  fun s => match c (snd s) with
           | Done a this => Done a (fst s, this)
           | Raised e this => Raised e (fst s, this)
           | UB => UB
           end.

Definition onResource {A} (c : Op Resource A) : Op (Resource * Mesh) A :=
  fun s => match c (fst s) with
           | Done a base => Done a (base, snd s)
           | Raised e base => Raised e (base, snd s)
           | UB => UB
           end.

(** [Mesh::initialize_internal] *)
Definition initialize_internal : Op (Resource * Mesh) unit :=
  THROW_IF_NOT_CORE_THREAD onCoreThread;;
  onMesh (writeSubresource onCoreThread 0 (GRD_MeshData dummyMeshData));;
  onResource Resource_initialize_internal.

End Lifecycle.

End CmMeshResource.

(** * Vocabulary of the transfer properties *)

Module TransferSpec.
Import HardwareBuffer CmIndexData CmVertexData CmMeshData CmMesh MeshSpec.

(** The vertex buffer a write binds to stream [i] of a container, and the
    buffers it binds in all: one for each populated stream, under the index
    of the stream. *)
Definition uploadedBuffer (d : MeshData) (i : N) : VertexBuffer :=
  {| vb_vertexSize := getVertexStride d i;
     vb_numVertices := md_numVertices d;
     vb_usage := GBU_STATIC;
     vb_storage := default [] (md_streamBytes d !! N.to_nat i) |}.

Definition uploadedBuffers (d : MeshData) : list (N * VertexBuffer) :=
  (fun i => (i, uploadedBuffer d i))
    <$> filter (fun i => hasStream d i = true) (range (getMaxStreamIdx d + 1)).

Definition uploadedIndexData (d : MeshData) : IndexData :=
  {| indexBuffer :=
       Some {| ib_type := getIndexType d; ib_numIndexes := getNumIndices d;
               ib_usage := GBU_STATIC; ib_storage := md_indexBytes d |};
     indexStart := 0;
     CmIndexData.indexCount := getNumIndices d |}.

Definition uploadedVertexData (d : MeshData) : VertexData :=
  {| vertexCount := getNumVertices d;
     vertexDeclaration := createDeclaration d;
     mVertexBuffers := uploadedBuffers d |}.

(** Two containers with the same description and regions of the same sizes. *)
Definition sameShape (d d' : MeshData) : Prop :=
  md_numVertices d' = md_numVertices d /\
  md_indexType d' = md_indexType d /\
  md_vertexElements d' = md_vertexElements d /\
  md_subMeshes d' = md_subMeshes d /\
  length (md_indexBytes d') = length (md_indexBytes d) /\
  length <$> md_streamBytes d' = length <$> md_streamBytes d.

(** The operation ends, without an exception, in a state where [Inv] holds,
    unless it is undefined. *)
Definition ensures {S A} (Inv : S -> Prop) (o : outcome S A) : Prop :=
  match o with
  | Done _ s => Inv s
  | Raised _ _ => False
  | UB => True
  end.

(** The operation ends, without an exception and defined, in a state where
    [Inv] holds. *)
Definition completes {S A} (Inv : S -> Prop) (o : outcome S A) : Prop :=
  match o with
  | Done _ s => Inv s
  | Raised _ _ => False
  | UB => False
  end.

(** What a read may do to the container [d] of the mesh [this]: overwrite
    bytes in place. *)
Definition readInto (this : Mesh) (d : MeshData) (s : Mesh * GpuResourceData) : Prop :=
  exists d', s = (this, GRD_MeshData d') /\ sameShape d d'.

(** The byte counts of a container fit a [UINT32]: the index bytes, the bytes
    of one vertex over all streams, and the bytes of all vertices. *)
Definition fits32 (d : MeshData) : Prop :=
  sumN (ied_numIndices <$> md_subMeshes d) * getIndexElementSize d < 2 ^ 32 /\
  sumN (getSize <$> md_vertexElements d) < 2 ^ 32 /\
  sumN (getSize <$> md_vertexElements d) * md_numVertices d < 2 ^ 32.

#[global] Instance fits32_dec d : Decision (fits32 d).
Proof. unfold fits32. apply _. Defined.

(** An element moved to stream [s], as the builder is asked to add it. *)
Definition movedTo (s : N) (e : VertexElement) : VertexElement :=
  {| ve_streamIdx := s; ve_offset := 0; ve_type := ve_type e;
     ve_semantic := ve_semantic e; ve_semanticIdx := ve_semanticIdx e |}.

(** While the vertex streams are read into the container allocated as [b0]:
    the index bytes stay [stored] and the stream regions keep their sizes. *)
Definition readingStreams (this : Mesh) (stored : list byte) (b0 : MeshData)
    (s : Mesh * GpuResourceData) : Prop :=
  exists cur, s = (this, GRD_MeshData cur) /\
              md_indexBytes cur = stored /\
              length <$> md_streamBytes cur = length <$> md_streamBytes b0.

End TransferSpec.

(** * Properties of the parameter store *)

Module GpuParamsProps.
Import BsGpuParams.

(** Each specialisation reduces to the same three cases on the search. *)
Lemma getParam_cases (T : ElemType) (this : GpuParams) (name : string)
    (output : TGpuDataParam T) :
  supported T ->
  match params (mParamDesc this) !! name with
  | None => rejected (getParam T this name output) output
  | Some d =>
      if bool_decide (type d = storedTypeOf T)
      then getParam T this name output
           = Done tt (Build_TGpuDataParam T (Some d) (mInternalData this))
      else rejected (getParam T this name output) output
  end.
Proof.
  intros HT.
  destruct T; try contradiction;
    unfold getParam, getParam_float, getParam_Vector2, getParam_Vector3,
      getParam_Vector4, getParam_Matrix3, getParam_Matrix4, notFoundOrNot,
      storedTypeOf;
    (destruct (params (mParamDesc this) !! name) as [d|];
     [ case_bool_decide; simpl; [reflexivity | eexists; reflexivity]
     | eexists; reflexivity ]).
Qed.

Lemma rejected_not_done {T} (output handle : TGpuDataParam T)
    (o : outcome (TGpuDataParam T) unit) :
  o = Done tt handle -> ~ rejected o output.
Proof. intros -> [msg Hmsg]. discriminate. Qed.

(** C2: for each of the six supported element types, [getParam<T>(name, out)]
    is rejected with an invalid-parameter exception exactly when the name is
    absent from the descriptor set or the stored type of the parameter is not
    the one of [T]; when the name is present with the matching type the call
    succeeds and [out] is the handle of that parameter. *)
Theorem getParam_rejects_iff (T : ElemType) (this : GpuParams) (name : string)
    (output : TGpuDataParam T) :
  supported T ->
  (rejected (getParam T this name output) output <->
     (params (mParamDesc this) !! name = None \/
      exists d, params (mParamDesc this) !! name = Some d /\
                type d <> storedTypeOf T)) /\
  (forall d, params (mParamDesc this) !! name = Some d ->
             type d = storedTypeOf T ->
             getParam T this name output
             = Done tt (Build_TGpuDataParam T (Some d) (mInternalData this))).
Proof.
  intros HT. pose proof (getParam_cases T this name output HT) as Hc.
  destruct (params (mParamDesc this) !! name) as [d|] eqn:Hfind.
  - case_bool_decide as Hty.
    + split.
      * split.
        -- intros Hrej. exfalso. exact (rejected_not_done _ _ _ Hc Hrej).
        -- intros [Habs | (d' & Hd' & Hne)]; [discriminate|].
           injection Hd' as <-. contradiction.
      * intros d' Hd' _. injection Hd' as <-. exact Hc.
    + split.
      * split; [|intros _; exact Hc].
        intros _. right. exists d. split; [reflexivity | exact Hty].
      * intros d' Hd' Hty'. injection Hd' as <-. contradiction.
  - split.
    + split; [intros _; left; reflexivity | intros _; exact Hc].
    + intros d' Hd'. discriminate.
Qed.

(** The scenario of the spec: "tint" is a [float4]; asked for as [Vector4] it
    is found, asked for as [float] it is rejected. *)
Lemma getParam_rejects_iff_witness :
  getParam T_Vector4 Samples.tintParams "tint" (Samples.nullHandle T_Vector4)
  = Done tt (GpuParamVec4 Samples.tintDesc (Some 1)) /\
  rejected (getParam T_float Samples.tintParams "tint" (Samples.nullHandle T_float))
    (Samples.nullHandle T_float).
Proof.
  split.
  - apply (proj2 (getParam_rejects_iff T_Vector4 Samples.tintParams "tint"
                    (Samples.nullHandle T_Vector4) I)).
    + vm_compute. reflexivity.
    + reflexivity.
  - apply (proj1 (getParam_rejects_iff T_float Samples.tintParams "tint"
                    (Samples.nullHandle T_float) I)).
    right. exists Samples.tintDesc. split.
    + vm_compute. reflexivity.
    + discriminate.
Defined.

End GpuParamsProps.

(** * Properties of the pipeline state *)

Module PipelineStateProps.
Import BsGpuPipelineState.

Section Types.

Variables BlendStateType RasterizerStateType DepthStencilStateType : Type.
Variable GpuProgramType : Type.
Variable GpuPipelineParamInfoType : Type.
Variable createParamInfo :
  option GpuProgramType -> option GpuProgramType -> option GpuProgramType ->
  option GpuProgramType -> option GpuProgramType -> GpuPipelineParamInfoType.

Let Desc := StateDescType BlendStateType RasterizerStateType DepthStencilStateType
              GpuProgramType.

(** A presence check reads the stage's pointer of the stored descriptor. *)
Lemma hasProgram_of_new (desc : Desc) state :
  TGraphicsPipelineState_new createParamInfo desc = Ok state ->
  hasVertexProgram state = notNull (vertexProgram desc) /\
  hasFragmentProgram state = notNull (fragmentProgram desc) /\
  hasGeometryProgram state = notNull (geometryProgram desc) /\
  hasHullProgram state = notNull (hullProgram desc) /\
  hasDomainProgram state = notNull (domainProgram desc).
Proof. intros [= <-]. repeat split. Qed.

(** C9: constructing a graphics pipeline state from a descriptor in which no
    shader-stage program is set succeeds, and every presence check
    [hasVertexProgram], [hasFragmentProgram], [hasGeometryProgram],
    [hasHullProgram], [hasDomainProgram] of the state is false. *)
Theorem noPrograms_construction (desc : Desc) :
  noProgramsSet desc ->
  exists state,
    TGraphicsPipelineState_new createParamInfo desc = Ok state /\
    hasVertexProgram state = false /\
    hasFragmentProgram state = false /\
    hasGeometryProgram state = false /\
    hasHullProgram state = false /\
    hasDomainProgram state = false.
Proof.
  intros (Hv & Hf & Hg & Hh & Hd).
  eexists. split; [reflexivity|].
  destruct (hasProgram_of_new desc _ eq_refl) as (-> & -> & -> & -> & ->).
  rewrite Hv, Hf, Hg, Hh, Hd. repeat split.
Qed.

End Types.

(** A descriptor with the three fixed-function states and no program. *)
Lemma noPrograms_construction_witness :
  exists state,
    TGraphicsPipelineState_new (fun _ _ _ _ _ => tt)
      (Build_StateDescType (Some 1%nat) (Some 2%nat) (Some 3%nat)
         (@None nat) None None None None) = Ok state /\
    hasVertexProgram state = false /\
    hasFragmentProgram state = false /\
    hasGeometryProgram state = false /\
    hasHullProgram state = false /\
    hasDomainProgram state = false.
Proof.
  apply (noPrograms_construction nat nat nat nat unit (fun _ _ _ _ _ => tt)).
  repeat split.
Defined.

End PipelineStateProps.

(** * Properties of the mesh *)

Module MeshProps.
Import HardwareBuffer CmIndexData CmVertexData CmMeshData CmMesh MeshSpec.

(** ** What a write leaves *)

(** Unfold the operations of the monad and compute. *)
Ltac run :=
  unfold mbind, mret, Op_bind, Op_ret, bind, ret, get, modify, raise, undefined,
    deref, orUndefined in *;
  simpl in *.

(** The loop over the submeshes appends the entries of those that pass. *)
Lemma for_each_push (P : N -> bool) (g : N -> SubMesh) (idxs : list N) (this : Mesh) :
  for_each idxs (fun i => if P i then modify (push_back (g i)) else ret tt) this
  = Done tt (set_mSubMeshes (mSubMeshes this ++ (g <$> filter (fun i => P i = true) idxs)) this).
Proof.
  revert this. induction idxs as [|i rest IH]; intros this.
  - simpl. unfold ret. rewrite app_nil_r. destruct this; reflexivity.
  - simpl. run. destruct (P i) eqn:HP.
    + rewrite IH. rewrite filter_cons_True by exact HP.
      simpl. unfold push_back, set_mSubMeshes. simpl. rewrite <- app_assoc. reflexivity.
    + rewrite IH. rewrite filter_cons_False by (rewrite HP; discriminate). reflexivity.
Qed.

Lemma writeSubMeshes_run (meshData : MeshData) (this : Mesh) :
  writeSubMeshes meshData this = Done tt (set_mSubMeshes (keptSubMeshes meshData) this).
Proof.
  unfold writeSubMeshes. run.
  rewrite (for_each_push (fun i => bool_decide (0 < getNumIndices_sub meshData i))
             (fun i => {| indexOffset := getIndexBufferOffset meshData i;
                          indexCount := getNumIndices_sub meshData i;
                          drawOp := getDrawOp meshData i |})).
  simpl. unfold keptSubMeshes. f_equal. unfold set_mSubMeshes. simpl. f_equal. f_equal.
  apply list_filter_iff. intros i. rewrite bool_decide_eq_true. reflexivity.
Qed.

Lemma writeIndices_run (meshData : MeshData) (this : Mesh) :
  writeIndices meshData this
  = match writtenIndexData meshData with
    | Some held => Done tt (set_mIndexData (Some held) this)
    | None => UB
    end.
Proof.
  unfold writeIndices, writtenIndexData, onIndexData, theIndexData. run.
  destruct (memcpyFrom _ _ _ _); run; reflexivity.
Qed.

Lemma writeVertexStream_run (meshData : MeshData) (i : N) (held : VertexData)
    (this : Mesh) :
  writeVertexStream meshData i (set_mVertexData (Some held) this)
  = match boundStream meshData i held with
    | Some held' => Done tt (set_mVertexData (Some held') this)
    | None => UB
    end.
Proof.
  unfold writeVertexStream, boundStream.
  destruct (negb (hasStream meshData i)); [reflexivity|].
  unfold onVertexData, theVertexData. run.
  destruct (vertexDeclaration held) as [declaration|]; run; [|reflexivity].
  destruct (memcpyFrom _ _ _ _) as [bytes|]; run; reflexivity.
Qed.

Lemma for_each_writeVertexStream (meshData : MeshData) (idxs : list N)
    (held : VertexData) (this : Mesh) :
  for_each idxs (writeVertexStream meshData) (set_mVertexData (Some held) this)
  = match boundStreams meshData idxs held with
    | Some held' => Done tt (set_mVertexData (Some held') this)
    | None => UB
    end.
Proof.
  revert held. induction idxs as [|i rest IH]; intros held.
  - reflexivity.
  - cbn [for_each boundStreams]. unfold mbind at 1, Op_bind, bind.
    rewrite writeVertexStream_run.
    destruct (boundStream meshData i held) as [held'|]; simpl; [apply IH | reflexivity].
Qed.

Lemma writeVertices_run (meshData : MeshData) (this : Mesh) :
  writeVertices meshData this
  = match writtenVertexData meshData with
    | Some held => Done tt (set_mVertexData (Some held) this)
    | None => UB
    end.
Proof.
  unfold writeVertices, writtenVertexData.
  unfold onVertexData at 1 2. unfold theVertexData. run.
  apply (for_each_writeVertexStream meshData _ _ this).
Qed.

(** On the core thread a write of a mesh-data container is undefined or
    leaves [writtenMesh], whatever the mesh was. *)
Lemma writeSubresource_run (subresourceIdx : N) (meshData : MeshData) (this : Mesh) :
  writeSubresource true subresourceIdx (GRD_MeshData meshData) this
  = match writtenMesh meshData with
    | Some this' => Done tt this'
    | None => UB
    end.
Proof.
  unfold writeSubresource, THROW_IF_NOT_CORE_THREAD, static_cast_MeshData.
  run. rewrite writeSubMeshes_run, writeIndices_run. unfold writtenMesh.
  destruct (writtenIndexData meshData) as [held_i|]; simpl; [|reflexivity].
  rewrite writeVertices_run.
  destruct (writtenVertexData meshData) as [held_v|]; simpl; reflexivity.
Qed.


Lemma length_zeros (n : N) : N.of_nat (length (zeros n)) = n.
Proof. unfold zeros. rewrite length_replicate. apply N2Nat.id. Qed.

(** A copy of a whole region over a whole region. *)
Lemma memcpy_whole (dst src : list byte) (n : N) :
  N.of_nat (length src) = n -> N.of_nat (length dst) = n ->
  memcpy dst 0 src 0 n = Some src.
Proof.
  intros Hs Hd. unfold memcpy.
  rewrite !bool_decide_eq_true_2 by lia. simpl.
  rewrite drop_0, take_ge by lia. rewrite drop_ge by lia.
  rewrite app_nil_r. reflexivity.
Qed.

Lemma range_lookup (n : N) (k : nat) :
  (k < N.to_nat n)%nat -> range n !! k = Some (N.of_nat k).
Proof.
  intros Hk. unfold range. rewrite list_lookup_fmap.
  rewrite lookup_seq_lt by exact Hk. reflexivity.
Qed.

Lemma length_range (n : N) : length (range n) = N.to_nat n.
Proof. unfold range. rewrite length_fmap, length_seq. reflexivity. Qed.

Lemma elem_of_range (n i : N) : i ∈ range n <-> i < n.
Proof.
  unfold range. rewrite list_elem_of_fmap. split.
  - intros (k & -> & Hk). apply elem_of_seq in Hk. lia.
  - intros Hi. exists (N.to_nat i). split; [lia|]. apply elem_of_seq. lia.
Qed.

Lemma wellSized_stream (d : MeshData) (i : N) :
  wellSized d -> i < getMaxStreamIdx d + 1 ->
  exists r, md_streamBytes d !! N.to_nat i = Some r /\
            N.of_nat (length r) = getStreamSize d i.
Proof.
  intros [_ Hw] Hi.
  assert (Hl : (N.of_nat <$> (length <$> md_streamBytes d)) !! N.to_nat i
               = Some (getStreamSize d i)).
  { rewrite Hw, list_lookup_fmap, range_lookup by lia. simpl.
    rewrite N2Nat.id. reflexivity. }
  rewrite !list_lookup_fmap in Hl.
  destruct (md_streamBytes d !! N.to_nat i) as [r|]; [|discriminate].
  exists r. split; [reflexivity|]. simpl in Hl. congruence.
Qed.

Lemma strideOf_assignOffsets (before elems : list VertexElement) (i : N) :
  strideOf (assignOffsets before elems) i = strideOf elems i.
Proof.
  unfold strideOf. f_equal. f_equal.
  revert before. induction elems as [|e rest IH]; intros before; [reflexivity|].
  simpl. rewrite !filter_cons. simpl.
  destruct (decide (ve_streamIdx e = i)); simpl; rewrite IH; reflexivity.
Qed.

Lemma writtenIndexData_wellSized (d : MeshData) :
  wellSized d ->
  writtenIndexData d
  = Some {| indexBuffer :=
              Some {| ib_type := getIndexType d; ib_numIndexes := getNumIndices d;
                      ib_usage := GBU_STATIC; ib_storage := md_indexBytes d |};
            indexStart := 0;
            CmIndexData.indexCount := getNumIndices d |}.
Proof.
  intros [Hw _]. unfold writtenIndexData, memcpyFrom. simpl.
  rewrite memcpy_whole; [reflexivity | exact Hw |].
  unfold lockIndexBuffer, lockStorage, createIndexBuffer. simpl.
  rewrite !length_zeros. unfold getIndexBufferSize, getIndexElementSize, getIndexType.
  f_equal. lia.
Qed.

Lemma boundStream_succeeds (d : MeshData) (i : N) (held : VertexData) decl :
  wellSized d ->
  i < getMaxStreamIdx d + 1 ->
  vertexDeclaration held = Some decl ->
  (forall k, getDeclVertexSize decl k = getVertexStride d k) ->
  vertexCount held = md_numVertices d ->
  exists held',
    boundStream d i held = Some held' /\
    vertexDeclaration held' = Some decl /\
    vertexCount held' = md_numVertices d.
Proof.
  intros Hw Hi Hdecl Hstride Hcount. unfold boundStream.
  destruct (negb (hasStream d i)); [eauto|].
  rewrite Hdecl. simpl.
  destruct (wellSized_stream d i Hw Hi) as (r & Hr & Hlen).
  unfold memcpyFrom. simpl. rewrite Hr. simpl.
  rewrite memcpy_whole; [| exact Hlen |].
  - simpl. eauto.
  - unfold lockVertexBuffer, lockStorage, createVertexBuffer. simpl.
    rewrite !length_zeros. rewrite Hstride, Hcount. reflexivity.
Qed.

Lemma boundStreams_succeeds (d : MeshData) (idxs : list N) (held : VertexData) decl :
  wellSized d ->
  Forall (fun i => i < getMaxStreamIdx d + 1) idxs ->
  vertexDeclaration held = Some decl ->
  (forall k, getDeclVertexSize decl k = getVertexStride d k) ->
  vertexCount held = md_numVertices d ->
  is_Some (boundStreams d idxs held).
Proof.
  intros Hw Hall. revert held.
  induction Hall as [|i rest Hi Hrest IH]; intros held Hdecl Hstride Hcount.
  - simpl. eauto.
  - simpl.
    destruct (boundStream_succeeds d i held decl Hw Hi Hdecl Hstride Hcount)
      as (held' & -> & Hdecl' & Hcount').
    simpl. apply IH; assumption.
Qed.

(** Every copy of the write stays inside its regions. *)
Lemma writtenMesh_wellSized (d : MeshData) :
  wellSized d -> is_Some (writtenMesh d).
Proof.
  intros Hw. unfold writtenMesh.
  rewrite (writtenIndexData_wellSized d Hw). simpl.
  destruct (boundStreams_succeeds d (range (getMaxStreamIdx d + 1))
              {| vertexCount := getNumVertices d;
                 vertexDeclaration := createDeclaration d;
                 mVertexBuffers := [] |}
              {| mElementList := assignOffsets [] (md_vertexElements d) |} Hw)
    as [held Hheld].
  - apply Forall_forall. intros i Hi. apply elem_of_range. exact Hi.
  - reflexivity.
  - intros i. apply strideOf_assignOffsets.
  - reflexivity.
  - unfold writtenVertexData. rewrite Hheld. simpl. eauto.
Qed.

(** C5: whenever [writeSubresource] returns, the submesh list of the mesh has
    one entry, in the order of the container, for each submesh of the
    container with a nonzero index count, carrying its index offset, index
    count and draw operation, and no entry for a submesh with zero indices;
    and it does return for every container whose regions have the sizes its
    description asks for. *)
Theorem writeSubresource_subMeshes (subresourceIdx : N) (meshData : MeshData)
    (this : Mesh) :
  (wellSized meshData ->
   exists this',
     writeSubresource true subresourceIdx (GRD_MeshData meshData) this = Done tt this') /\
  (forall this',
     writeSubresource true subresourceIdx (GRD_MeshData meshData) this = Done tt this' ->
     mSubMeshes this' = keptSubMeshes meshData /\
     Forall (fun subMesh => 0 < indexCount subMesh) (mSubMeshes this')).
Proof.
  rewrite writeSubresource_run. split.
  - intros Hw. destruct (writtenMesh_wellSized meshData Hw) as [this' ->]. eauto.
  - intros this' Hdone. unfold writtenMesh in Hdone.
    destruct (writtenIndexData meshData); [|discriminate].
    destruct (writtenVertexData meshData); [|discriminate].
    injection Hdone as <-. simpl. split; [reflexivity|].
    unfold keptSubMeshes. apply Forall_fmap, Forall_forall.
    intros k Hk. apply list_elem_of_filter in Hk. simpl. tauto.
Qed.

(** The three-submesh sample keeps its first and its third submesh. *)
Lemma writeSubresource_subMeshes_witness :
  exists this',
    writeSubresource true 0 (GRD_MeshData Samples.threeSubMeshes) Mesh_new
    = Done tt this' /\
    mSubMeshes this'
    = [{| indexOffset := 0; indexCount := 1; drawOp := DOT_POINT_LIST |};
       {| indexOffset := 1; indexCount := 2; drawOp := DOT_LINE_LIST |}].
Proof.
  destruct (proj1 (writeSubresource_subMeshes 0 Samples.threeSubMeshes Mesh_new))
    as [this' Hdone].
  - vm_compute. split; reflexivity.
  - exists this'. split; [exact Hdone|].
    destruct (proj2 (writeSubresource_subMeshes 0 Samples.threeSubMeshes Mesh_new)
                this' Hdone) as [-> _].
    reflexivity.
Defined.

(** C7: writing the same container twice in succession is the same state
    transformer as writing it once; and what a write on the core thread leaves
    does not depend on the mesh it is applied to, so the second write replaces
    what the first installed. *)
Theorem writeSubresource_idempotent :
  (forall onCoreThread subresourceIdx data this,
     (writeSubresource onCoreThread subresourceIdx data;;
      writeSubresource onCoreThread subresourceIdx data) this
     = writeSubresource onCoreThread subresourceIdx data this) /\
  (forall subresourceIdx meshData this other,
     writeSubresource true subresourceIdx (GRD_MeshData meshData) this
     = writeSubresource true subresourceIdx (GRD_MeshData meshData) other).
Proof.
  split.
  - intros b idx data this.
    destruct b; [destruct data as [meshData | n payload]|].
    + unfold mbind, Op_bind, bind.
      rewrite writeSubresource_run.
      destruct (writtenMesh meshData) as [this'|] eqn:Hwritten; [|reflexivity].
      rewrite writeSubresource_run, Hwritten. reflexivity.
    + reflexivity.
    + reflexivity.
  - intros idx meshData this other. rewrite !writeSubresource_run. reflexivity.
Qed.

(** ** What [allocateSubresourceBuffer] returns *)

Lemma rfoldl_Ok {A I} (g : A -> I -> A) (a : A) (idxs : list I) :
  rfoldl (fun a i => Ok (g a i)) a idxs = Ok (foldl g a idxs).
Proof. revert a. induction idxs as [|i rest IH]; intros a; [reflexivity|]. simpl. apply IH. Qed.

Lemma rfoldl_ext {A I} (f g : A -> I -> result A) (a : A) (idxs : list I) :
  (forall a i, i ∈ idxs -> f a i = g a i) -> rfoldl f a idxs = rfoldl g a idxs.
Proof.
  revert a. induction idxs as [|i rest IH]; intros a Hfg; [reflexivity|].
  simpl. rewrite Hfg by left. destruct (g a i); simpl; try reflexivity.
  apply IH. intros a' i' Hi'. apply Hfg. right. exact Hi'.
Qed.

Lemma rfoldl_lookup_from {A B} (f : A -> N -> B -> A) (l2 l1 : list B) (a : A) :
  rfoldl (fun a i => x ← rderef ((l1 ++ l2) !! N.to_nat i); Ok (f a i x)) a
    (N.of_nat <$> seq (length l1) (length l2))
  = Ok (foldl (fun a ix => f a ix.1 ix.2) a
          (zip (N.of_nat <$> seq (length l1) (length l2)) l2)).
Proof.
  revert l1 a. induction l2 as [|x l2 IH]; intros l1 a; [reflexivity|].
  simpl. rewrite Nat2N.id, list_lookup_middle by reflexivity. simpl.
  specialize (IH (l1 ++ [x]) (f a (N.of_nat (length l1)) x)).
  rewrite <- app_assoc, length_app in IH. simpl in IH.
  rewrite Nat.add_1_r in IH. exact IH.
Qed.

(** A counted loop that indexes a list visits its elements in order. *)
Lemma rfoldl_lookup {A B} (f : A -> N -> B -> A) (l : list B) (a : A) :
  rfoldl (fun a i => x ← rderef (l !! N.to_nat i); Ok (f a i x)) a
    (range (N.of_nat (length l)))
  = Ok (foldl (fun a ix => f a ix.1 ix.2) a (zip (range (N.of_nat (length l))) l)).
Proof.
  unfold range. rewrite Nat2N.id. apply (rfoldl_lookup_from f l [] a).
Qed.

Lemma foldl_addSubMesh (subMeshes : list SubMesh) (k : nat) (d : MeshData) :
  length (md_subMeshes d) = k ->
  foldl (fun meshData ix => addSubMesh (indexCount ix.2) ix.1 DOT_TRIANGLE_LIST meshData)
    d (zip (N.of_nat <$> seq k (length subMeshes)) subMeshes)
  = set_subMeshes
      (md_subMeshes d ++
       ((fun subMesh => {| ied_numIndices := indexCount subMesh;
                           ied_drawOp := DOT_TRIANGLE_LIST |}) <$> subMeshes)) d.
Proof.
  revert k d. induction subMeshes as [|s rest IH]; intros k d Hk.
  - simpl. rewrite app_nil_r. destruct d; reflexivity.
  - simpl. rewrite (IH (S k)).
    + unfold addSubMesh, set_subMeshes. simpl. f_equal.
      replace (N.to_nat (N.of_nat k + 1) - length (md_subMeshes d))%nat with 1%nat by lia.
      simpl. rewrite Nat2N.id. rewrite <- Hk.
      rewrite insert_app_r_alt by lia. rewrite Nat.sub_diag. simpl.
      rewrite <- app_assoc. reflexivity.
    + unfold addSubMesh. simpl. rewrite length_insert, length_app, length_replicate. lia.
Qed.

Lemma foldl_addVertElem (elems : list VertexElement) (streamIdx : N) (d : MeshData) :
  foldl (fun meshData (jx : N * VertexElement) =>
           addVertElem (getElemType jx.2) (getSemantic jx.2) (getSemanticIdx jx.2)
             streamIdx meshData)
    d (zip (range (N.of_nat (length elems))) elems)
  = set_vertexElements
      (md_vertexElements d ++
       ((fun e => {| ve_streamIdx := streamIdx; ve_offset := 0;
                     ve_type := ve_type e; ve_semantic := ve_semantic e;
                     ve_semanticIdx := ve_semanticIdx e |}) <$> elems)) d.
Proof.
  unfold range. rewrite Nat2N.id. generalize 0%nat as k.
  revert d. induction elems as [|e rest IH]; intros d k.
  - simpl. rewrite app_nil_r. destruct d; reflexivity.
  - simpl. rewrite IH. unfold addVertElem, set_vertexElements. simpl.
    rewrite <- app_assoc. reflexivity.
Qed.

Lemma foldl_streams (buffers : list (N * VertexBuffer)) (elems : list VertexElement)
    (k : nat) (d : MeshData) :
  foldl (fun meshData (sb : N * (N * VertexBuffer)) =>
           set_vertexElements
             (md_vertexElements meshData ++
              ((fun e => {| ve_streamIdx := sb.1; ve_offset := 0;
                            ve_type := ve_type e; ve_semantic := ve_semantic e;
                            ve_semanticIdx := ve_semanticIdx e |}) <$> elems)) meshData)
    d (zip (N.of_nat <$> seq k (length buffers)) buffers)
  = set_vertexElements
      (md_vertexElements d ++
       mjoin ((fun streamIdx =>
                 (fun e => {| ve_streamIdx := streamIdx; ve_offset := 0;
                              ve_type := ve_type e; ve_semantic := ve_semantic e;
                              ve_semanticIdx := ve_semanticIdx e |}) <$> elems)
                <$> (N.of_nat <$> seq k (length buffers)))) d.
Proof.
  revert k d. induction buffers as [|b rest IH]; intros k d.
  - simpl. rewrite app_nil_r. destruct d; reflexivity.
  - simpl. rewrite IH. unfold set_vertexElements. simpl.
    rewrite <- app_assoc. reflexivity.
Qed.

(** With vertex data and its declaration present, the call returns the
    container [allocated] describes. *)
Lemma allocateSubresourceBuffer_run (subresourceIdx : N) (this : Mesh) held declaration
    indexType :
  mVertexData this = Some held ->
  vertexDeclaration held = Some declaration ->
  indexTypeOf this = Some indexType ->
  allocateSubresourceBuffer subresourceIdx this
  = Ok (allocated this held declaration indexType).
Proof.
  intros Hv Hd Hi. unfold allocateSubresourceBuffer.
  assert (match mIndexData this with
          | Some held0 => buffer ← rderef (indexBuffer held0); Ok (getType buffer)
          | None => Ok IT_32BIT
          end = Ok indexType) as ->.
  { unfold indexTypeOf in Hi. destruct (mIndexData this) as [h|].
    - destruct (indexBuffer h); simpl in *; [congruence | discriminate].
    - congruence. }
  cbn [mbind result_bind rbind]. rewrite Hv. cbn [rderef mbind result_bind rbind].
  set (d0 := beginDesc (MeshData_new (vertexCount held) indexType)).
  assert (match mIndexData this with
          | Some _ =>
              rfoldl (fun meshData i =>
                        subMesh ← rderef (mSubMeshes this !! N.to_nat i);
                        Ok (addSubMesh (indexCount subMesh) i DOT_TRIANGLE_LIST meshData))
                d0 (range (N.of_nat (length (mSubMeshes this))))
          | None => Ok d0
          end = Ok (set_subMeshes (allocatedSubMeshes this) d0)) as ->.
  { unfold allocatedSubMeshes. destruct (mIndexData this); [|reflexivity].
    rewrite (rfoldl_lookup (fun meshData i subMesh =>
               addSubMesh (indexCount subMesh) i DOT_TRIANGLE_LIST meshData)).
    unfold range. rewrite Nat2N.id. rewrite (foldl_addSubMesh _ 0%nat) by reflexivity.
    reflexivity. }
  cbn [mbind result_bind rbind].
  set (d1 := set_subMeshes (allocatedSubMeshes this) d0).
  erewrite (rfoldl_ext _ (fun meshData (sb : N * (N * VertexBuffer)) =>
              Ok (set_vertexElements
                    (md_vertexElements meshData ++
                     ((fun e => {| ve_streamIdx := sb.1; ve_offset := 0;
                                   ve_type := ve_type e; ve_semantic := ve_semantic e;
                                   ve_semanticIdx := ve_semanticIdx e |})
                        <$> mElementList declaration)) meshData))).
  - rewrite rfoldl_Ok. unfold range. rewrite Nat2N.id, foldl_streams.
    cbn [mbind result_bind rbind]. unfold allocated, allocatedElements, range.
    rewrite Nat2N.id. reflexivity.
  - intros meshData [streamIdx [key vertexBuffer]] _. rewrite Hd.
    cbn [rderef mbind result_bind rbind]. unfold getElementCount, getElement.
    rewrite (rfoldl_lookup (fun meshData j element =>
               addVertElem (getElemType element) (getSemantic element)
                 (getSemanticIdx element) streamIdx meshData)).
    rewrite foldl_addVertElem. reflexivity.
Qed.

(** ** Reading back *)

(** A copy that extends the part already copied by the next [n] bytes. *)
Lemma memcpy_advance (stored : list byte) (p n T : N) :
  N.of_nat (length stored) = T -> p + n <= T ->
  memcpy (take (N.to_nat p) stored ++ zeros (T - p)) p stored p n
  = Some (take (N.to_nat (p + n)) stored ++ zeros (T - (p + n))).
Proof.
  intros HS Hpn.
  assert (Hlen : length (take (N.to_nat p) stored) = N.to_nat p)
    by (rewrite length_take; lia).
  unfold memcpy.
  rewrite bool_decide_eq_true_2 by lia.
  rewrite bool_decide_eq_true_2
    by (rewrite length_app, Hlen; unfold zeros; rewrite length_replicate; lia).
  simpl. f_equal.
  rewrite take_app_length' by (symmetry; exact Hlen).
  rewrite drop_app_ge by lia. rewrite Hlen.
  unfold zeros. rewrite drop_replicate.
  rewrite app_assoc. rewrite take_take_drop.
  f_equal; [f_equal; lia | f_equal; lia].
Qed.

Lemma sumN_app (l1 l2 : list N) : sumN (l1 ++ l2) = sumN l1 + sumN l2.
Proof. induction l1 as [|x l1 IH]; simpl; [reflexivity|]. unfold sumN in *. simpl. lia. Qed.

Lemma u32_small (x : N) : x < 2 ^ 32 -> u32 x = x.
Proof. intros Hx. unfold u32. apply N.mod_small. exact Hx. Qed.

Lemma kept_contiguous_from (d : MeshData) (subs2 subs1 : list IndexElementData) :
  md_subMeshes d = subs1 ++ subs2 ->
  sumN (ied_numIndices <$> md_subMeshes d) < 2 ^ 32 ->
  let kept :=
    (fun i => {| indexOffset := getIndexBufferOffset d i;
                 indexCount := getNumIndices_sub d i;
                 drawOp := getDrawOp d i |})
      <$> filter (fun i => 0 < getNumIndices_sub d i)
            (N.of_nat <$> seq (length subs1) (length subs2)) in
  contiguous (sumN (ied_numIndices <$> subs1)) kept /\
  sumN (indexCount <$> kept) = sumN (ied_numIndices <$> subs2).
Proof.
  revert subs1. induction subs2 as [|e subs2 IH]; intros subs1 Hd Hsum; simpl.
  - split; [exact I | reflexivity].
  - assert (Hn : getNumIndices_sub d (N.of_nat (length subs1)) = ied_numIndices e).
    { unfold getNumIndices_sub. rewrite Nat2N.id, Hd, list_lookup_middle by reflexivity.
      reflexivity. }
    assert (Ho : getIndexBufferOffset d (N.of_nat (length subs1))
                 = sumN (ied_numIndices <$> subs1)).
    { unfold getIndexBufferOffset. rewrite Nat2N.id, Hd, take_app_length.
      apply u32_small. rewrite Hd, fmap_app, sumN_app in Hsum. lia. }
    specialize (IH (subs1 ++ [e])).
    rewrite <- app_assoc, length_app, Nat.add_1_r in IH. simpl in IH.
    specialize (IH Hd Hsum). destruct IH as [IHc IHs].
    rewrite fmap_app, sumN_app in IHc. simpl in IHc. rewrite N.add_0_r in IHc.
    rewrite filter_cons. destruct (decide (0 < getNumIndices_sub d (N.of_nat (length subs1)))) as [Hpos|Hzero].
    + simpl. rewrite Ho, Hn. split; [split; [reflexivity|]|].
      * exact IHc.
      * f_equal. exact IHs.
    + rewrite Hn in Hzero. assert (ied_numIndices e = 0) as Hz by lia.
      rewrite Hz in *. split.
      * rewrite N.add_0_r in IHc. exact IHc.
      * exact IHs.
Qed.

(** The index ranges of the kept submeshes follow one another from 0 and
    cover every index of the container. *)
Lemma keptSubMeshes_contiguous (d : MeshData) :
  sumN (ied_numIndices <$> md_subMeshes d) < 2 ^ 32 ->
  contiguous 0 (keptSubMeshes d) /\
  sumN (indexCount <$> keptSubMeshes d) = sumN (ied_numIndices <$> md_subMeshes d).
Proof.
  intros Hsum. unfold keptSubMeshes, range, getNumSubmeshes. rewrite Nat2N.id.
  apply (kept_contiguous_from d (md_subMeshes d) []); [reflexivity | exact Hsum].
Qed.

Lemma theMeshData_run (this : Mesh) (cur : MeshData) :
  theMeshData (this, GRD_MeshData cur) = Done cur (this, GRD_MeshData cur).
Proof. reflexivity. Qed.

Lemma copyIntoData_run (this : Mesh) (cur : MeshData) (dest : BytePtr)
    (src : list byte) (srcOff n : N) :
  copyIntoData dest src srcOff n (this, GRD_MeshData cur)
  = match memcpyInto cur dest src srcOff n with
    | Some cur' => Done tt (this, GRD_MeshData cur')
    | None => UB
    end.
Proof.
  unfold copyIntoData. unfold mbind, Op_bind, bind. rewrite theMeshData_run.
  destruct (memcpyInto cur dest src srcOff n); reflexivity.
Qed.

(** The loop over the submeshes copies the stored index bytes range by range:
    after the submeshes [K1] the container holds the stored bytes up to the
    end of their ranges, and after all of them it holds them all. *)
Lemma readIndices_loop (stored : list byte) (es T : N) (this : Mesh) (indexType : IndexType) :
  forall K2 K1 cur,
    mSubMeshes this = K1 ++ K2 ->
    getIndexElementSize cur = es ->
    ied_numIndices <$> md_subMeshes cur = indexCount <$> (K1 ++ K2) ->
    contiguous (sumN (indexCount <$> K1)) K2 ->
    0 < es ->
    N.of_nat (length stored) = T ->
    sumN (indexCount <$> (K1 ++ K2)) * es = T ->
    T < 2 ^ 32 ->
    md_indexBytes cur
    = take (N.to_nat (sumN (indexCount <$> K1) * es)) stored
        ++ zeros (T - sumN (indexCount <$> K1) * es) ->
    for_each (N.of_nat <$> seq (length K1) (length K2))
      (readSubMeshIndices this indexType stored es) (this, GRD_MeshData cur)
    = Done tt (this, GRD_MeshData (set_indexBytes stored cur)).
Proof.
  induction K2 as [|subMesh K2 IH]; intros K1 cur Hthis Hes Hcounts Hcont Hpos HS HT Hsmall Hbytes.
  - simpl. unfold ret. do 3 f_equal.
    rewrite app_nil_r in HT. rewrite HT in Hbytes.
    rewrite N.sub_diag in Hbytes. rewrite take_ge in Hbytes by lia.
    unfold zeros in Hbytes. simpl in Hbytes. rewrite app_nil_r in Hbytes.
    rewrite <- Hbytes. destruct cur; reflexivity.
  - destruct Hcont as [Hoff Hcont].
    rewrite fmap_app, sumN_app in HT. simpl in HT.
    set (P1 := sumN (indexCount <$> K1)) in *.
    assert (Hrest : sumN (indexCount <$> subMesh :: K2)
                    = indexCount subMesh + sumN (indexCount <$> K2)) by reflexivity.
    cbn [length seq fmap list_fmap for_each].
    unfold mbind at 1, Op_bind, bind.
    assert (Hstep : readSubMeshIndices this indexType stored es (N.of_nat (length K1))
                      (this, GRD_MeshData cur)
                    = Done tt (this, GRD_MeshData
                        (set_indexBytes
                           (take (N.to_nat ((P1 + indexCount subMesh) * es)) stored
                              ++ zeros (T - (P1 + indexCount subMesh) * es)) cur))).
    { assert (Hdst : (if bool_decide (indexType = IT_16BIT)
                      then getIndices16 cur (N.of_nat (length K1))
                      else getIndices32 cur (N.of_nat (length K1)))
                     = IndexBytesAt (P1 * es)).
      { assert (getIndexBufferOffset cur (N.of_nat (length K1)) = P1) as Ho.
        { unfold getIndexBufferOffset. rewrite Nat2N.id.
          rewrite fmap_take, Hcounts, <- fmap_take, take_app_length.
          apply u32_small. fold P1. nia. }
        unfold getIndices16, getIndices32. rewrite Ho, Hes.
        rewrite u32_small by nia. destruct (bool_decide _); reflexivity. }
      unfold readSubMeshIndices. unfold mbind, Op_bind, bind.
      rewrite theMeshData_run, Hdst.
      rewrite Nat2N.id, Hthis, list_lookup_middle by reflexivity.
      unfold deref, ret. rewrite copyIntoData_run.
      unfold memcpyInto. rewrite Hoff.
      rewrite !u32_small by nia.
      rewrite Hbytes.
      rewrite (memcpy_advance stored (P1 * es) (indexCount subMesh * es) T HS) by nia.
      cbn [mbind option_bind].
      replace ((P1 + indexCount subMesh) * es)
        with (P1 * es + indexCount subMesh * es) by ring.
      reflexivity. }
    rewrite Hstep.
    assert (Hsnoc : sumN (indexCount <$> (K1 ++ [subMesh])) = P1 + indexCount subMesh).
    { rewrite fmap_app, sumN_app. unfold sumN at 2. simpl. fold P1. lia. }
    specialize (IH (K1 ++ [subMesh])
                  (set_indexBytes
                     (take (N.to_nat ((P1 + indexCount subMesh) * es)) stored
                        ++ zeros (T - (P1 + indexCount subMesh) * es)) cur)).
    rewrite length_app, Nat.add_1_r, Hsnoc, <- app_assoc in IH.
    rewrite IH; try assumption.
    + destruct cur; reflexivity.
    + rewrite fmap_app, sumN_app. exact HT.
    + reflexivity.
Qed.

(** ** Containers with one vertex stream *)

Lemma strideOf_inStream (elems : list VertexElement) (i : N) :
  inStream i elems -> strideOf elems i = u32 (sumN (getSize <$> elems)).
Proof.
  intros Hall. unfold strideOf. f_equal. fold (sumN (getSize <$> filter (fun e => ve_streamIdx e = i) elems)).
  f_equal. f_equal. induction Hall as [|e rest He Hrest IH]; [reflexivity|].
  rewrite filter_cons_True by exact He. f_equal. exact IH.
Qed.

Lemma maxStream_inStream (elems : list VertexElement) :
  inStream 0 elems -> foldr N.max 0 (ve_streamIdx <$> elems) = 0.
Proof.
  intros Hall. induction Hall as [|e rest He Hrest IH]; [reflexivity|].
  simpl. rewrite He. rewrite N.max_0_l. exact IH.
Qed.

Lemma assignOffsets_inStream (before elems : list VertexElement) (i : N) :
  inStream i elems -> inStream i (assignOffsets before elems).
Proof.
  intros Hall. revert before. induction Hall as [|e rest He Hrest IH]; intros before.
  - constructor.
  - simpl. constructor; [exact He | apply IH].
Qed.

Lemma assignOffsets_sizes (before elems : list VertexElement) :
  getSize <$> assignOffsets before elems = getSize <$> elems.
Proof.
  revert before. induction elems as [|e rest IH]; intros before; [reflexivity|].
  simpl. f_equal. apply IH.
Qed.

Lemma hasStream_inStream (d : MeshData) :
  inStream 0 (md_vertexElements d) ->
  hasStream d 0 = bool_decide (md_vertexElements d <> []).
Proof.
  unfold hasStream. intros Hall. destruct Hall as [|e rest He Hrest]; [reflexivity|].
  simpl. rewrite bool_decide_eq_true_2 by exact He. reflexivity.
Qed.

Lemma writtenVertexData_inStream (d : MeshData) :
  wellSized d -> inStream 0 (md_vertexElements d) ->
  writtenVertexData d
  = Some {| vertexCount := md_numVertices d;
            vertexDeclaration := createDeclaration d;
            mVertexBuffers := singleStreamBuffers d |}.
Proof.
  intros Hw Hall. unfold writtenVertexData, getMaxStreamIdx.
  rewrite (maxStream_inStream _ Hall). change (range (0 + 1)) with [0].
  cbn [boundStreams]. unfold boundStream, singleStreamBuffers.
  destruct (hasStream d 0) eqn:Hhas; [|reflexivity].
  cbn [negb vertexDeclaration createDeclaration mbind option_bind].
  destruct (wellSized_stream d 0 Hw) as (r & Hr & Hlen).
  { unfold getMaxStreamIdx. rewrite (maxStream_inStream _ Hall). lia. }
  change (N.to_nat 0) with 0%nat in Hr.
  unfold memcpyFrom, getStreamData, regionOf. change (N.to_nat 0) with 0%nat.
  rewrite Hr. cbn [mbind option_bind default].
  rewrite memcpy_whole; [| exact Hlen |].
  - cbn [mbind option_bind]. unfold setBuffer. cbn. unfold getDeclVertexSize. cbn.
    rewrite strideOf_assignOffsets. reflexivity.
  - unfold lockVertexBuffer, lockStorage, createVertexBuffer. cbn.
    rewrite !length_zeros. unfold getDeclVertexSize. cbn.
    rewrite strideOf_assignOffsets. reflexivity.
Qed.

Lemma wellSized_single (d : MeshData) :
  wellSized d -> inStream 0 (md_vertexElements d) ->
  exists r0, md_streamBytes d = [r0] /\ N.of_nat (length r0) = getStreamSize d 0.
Proof.
  intros Hw Hall. pose proof Hw as [_ Hs].
  unfold getMaxStreamIdx in Hs. rewrite (maxStream_inStream _ Hall) in Hs.
  change (range (0 + 1)) with [0] in Hs.
  destruct (md_streamBytes d) as [|r0 [|r1 rest]]; try discriminate.
  exists r0. split; [reflexivity|]. simpl in Hs. congruence.
Qed.

(** On the core thread, with index data, its buffer and vertex data present,
    a read into a mesh-data container is its two loops. *)
Lemma readSubresource_run (subresourceIdx : N) (this : Mesh) (cur : MeshData)
    held_i buffer held_v :
  mIndexData this = Some held_i ->
  indexBuffer held_i = Some buffer ->
  mVertexData this = Some held_v ->
  readSubresource true subresourceIdx (this, GRD_MeshData cur)
  = (for_each (range (N.of_nat (length (mSubMeshes this))))
       (readSubMeshIndices this (getType buffer) (ib_storage buffer) (getIndexSize buffer));;
     for_each (zip (range (N.of_nat (length (getBuffers held_v)))) (getBuffers held_v))
       readVertexStream) (this, GRD_MeshData cur).
Proof.
  intros Hi Hb Hv. unfold readSubresource, THROW_IF_NOT_CORE_THREAD.
  unfold mbind, Op_bind, bind, ret, get. cbn [fst snd getTypeId].
  rewrite bool_decide_eq_true_2 by reflexivity. cbn [negb].
  rewrite Hi, Hb, Hv. reflexivity.
Qed.

Lemma retag_sizes (streamIdx : N) (elems : list VertexElement) :
  getSize <$> ((fun e => {| ve_streamIdx := streamIdx; ve_offset := 0;
                            ve_type := ve_type e; ve_semantic := ve_semantic e;
                            ve_semanticIdx := ve_semanticIdx e |}) <$> elems)
  = getSize <$> elems.
Proof. rewrite <- list_fmap_compose. reflexivity. Qed.

Lemma retag_inStream (streamIdx : N) (elems : list VertexElement) :
  inStream streamIdx
    ((fun e => {| ve_streamIdx := streamIdx; ve_offset := 0;
                  ve_type := ve_type e; ve_semantic := ve_semantic e;
                  ve_semanticIdx := ve_semanticIdx e |}) <$> elems).
Proof. apply Forall_fmap, Forall_forall. intros e _. reflexivity. Qed.

Lemma allocatedElements_one (elems : list VertexElement) :
  allocatedElements 1 elems
  = (fun e => {| ve_streamIdx := 0; ve_offset := 0;
                 ve_type := ve_type e; ve_semantic := ve_semantic e;
                 ve_semanticIdx := ve_semanticIdx e |}) <$> elems.
Proof.
  unfold allocatedElements. change (range (N.of_nat 1)) with [0].
  simpl. apply app_nil_r.
Qed.

(** With every vertex element in stream 0, and index bytes that fit 32 bits,
    the round trip gives the bytes back: writing the container and reading it
    into the container [allocateSubresourceBuffer] returns completes, and the
    index bytes and the stream bytes read back are those written. *)
Theorem writeThenRead_singleStream (d : MeshData) (this : Mesh) :
  wellSized d ->
  inStream 0 (md_vertexElements d) ->
  sumN (ied_numIndices <$> md_subMeshes d) * getIndexElementSize d < 2 ^ 32 ->
  exists back this',
    writeThenRead d this = Done (GRD_MeshData back) this' /\
    md_indexBytes back = md_indexBytes d /\
    md_streamBytes back = md_streamBytes d.
Proof.
  intros Hw Hall Hsmall.
  set (es := getIndexElementSize d) in *.
  assert (Hes : 0 < es) by (unfold es, getIndexElementSize; destruct (md_indexType d); reflexivity).
  set (total := sumN (ied_numIndices <$> md_subMeshes d)) in *.
  assert (Htotal : total < 2 ^ 32) by nia.
  destruct (keptSubMeshes_contiguous d Htotal) as [Hcont Hsum]. fold total in Hsum.
  destruct (wellSized_single d Hw Hall) as (r0 & Hstreams & Hr0).
  pose proof Hw as [Hidx _].
  assert (Hlen : N.of_nat (length (md_indexBytes d)) = total * es).
  { rewrite Hidx. unfold getIndexBufferSize, getNumIndices. fold total es.
    rewrite (u32_small total) by exact Htotal. apply u32_small. exact Hsmall. }
  set (held_i := {| indexBuffer :=
                      Some {| ib_type := getIndexType d; ib_numIndexes := getNumIndices d;
                              ib_usage := GBU_STATIC; ib_storage := md_indexBytes d |};
                    indexStart := 0;
                    CmIndexData.indexCount := getNumIndices d |}).
  set (held_v := {| vertexCount := md_numVertices d;
                    vertexDeclaration := createDeclaration d;
                    mVertexBuffers := singleStreamBuffers d |}).
  set (this1 := {| mVertexData := Some held_v; mIndexData := Some held_i;
                   mSubMeshes := keptSubMeshes d |}).
  assert (Hwritten : writtenMesh d = Some this1).
  { unfold writtenMesh. rewrite (writtenIndexData_wellSized d Hw).
    rewrite (writtenVertexData_inStream d Hw Hall). reflexivity. }
  unfold writeThenRead. unfold mbind at 1 2, Op_bind, bind.
  rewrite writeSubresource_run, Hwritten.
  unfold liftR.
  rewrite (allocateSubresourceBuffer_run 0 this1 held_v
             {| mElementList := assignOffsets [] (md_vertexElements d) |}
             (md_indexType d)) by reflexivity.
  set (b0 := allocated this1 held_v _ (md_indexType d)).
  unfold withData.
  rewrite (readSubresource_run 0 this1 b0 held_i _ held_v) by reflexivity.
  unfold mbind at 1, Op_bind, bind.
  unfold range. rewrite Nat2N.id.
  change (getType _) with (md_indexType d).
  change (ib_storage _) with (md_indexBytes d).
  change (getIndexSize _) with es.
  assert (Hloop :
    for_each (N.of_nat <$> seq 0 (length (mSubMeshes this1)))
      (readSubMeshIndices this1 (md_indexType d) (md_indexBytes d) es)
      (this1, GRD_MeshData b0)
    = Done tt (this1, GRD_MeshData (set_indexBytes (md_indexBytes d) b0))).
  { apply (readIndices_loop (md_indexBytes d) es (total * es) this1 (md_indexType d)
             (keptSubMeshes d) [] b0).
    - reflexivity.
    - reflexivity.
    - cbn. rewrite <- list_fmap_compose. reflexivity.
    - exact Hcont.
    - exact Hes.
    - exact Hlen.
    - cbn [app]. rewrite Hsum. reflexivity.
    - exact Hsmall.
    - cbn [fmap list_fmap]. change (sumN []) with 0. rewrite N.mul_0_l, N.sub_0_r.
      change (N.to_nat 0) with 0%nat. rewrite take_0. cbn [app].
      cbn. f_equal. unfold getIndexBufferSize, getNumIndices. cbn.
      rewrite <- list_fmap_compose.
      change (u32 (u32 (sumN (indexCount <$> keptSubMeshes d)) * es) = total * es).
      rewrite Hsum. rewrite (u32_small total) by exact Htotal.
      apply u32_small. exact Hsmall. }
  rewrite Hloop; clear Hloop.
  (* the vertex loop *)
  unfold held_v at 1 2. unfold getBuffers. cbn [mVertexBuffers].
  unfold singleStreamBuffers. destruct (hasStream d 0) eqn:Hhas.
  - change (N.of_nat <$> seq 0 (N.to_nat (N.of_nat (length [(0, _)])))) with [0].
    cbn [zip zip_with for_each]. unfold mbind at 1, Op_bind, bind.
    unfold readVertexStream. cbn [fst snd].
    unfold mbind at 1, Op_bind, bind. rewrite theMeshData_run, copyIntoData_run.
    unfold memcpyInto, getStreamData. change (N.to_nat 0) with 0%nat.
    assert (Hb0 : md_streamBytes (set_indexBytes (md_indexBytes d) b0)
                  = [zeros (getStreamSize d 0)]).
    { unfold b0, allocated, held_v, getBuffers. cbn [mVertexBuffers].
      unfold singleStreamBuffers. rewrite Hhas.
      cbn [length]. rewrite allocatedElements_one.
      unfold endDesc, set_indexBytes, set_streamBytes. cbn [md_streamBytes].
      unfold getMaxStreamIdx. cbn [md_vertexElements].
      rewrite (maxStream_inStream _ (retag_inStream 0 _)).
      change (range (0 + 1)) with [0]. cbn [fmap list_fmap]. do 2 f_equal.
      unfold getStreamSize, getVertexStride. cbn [md_vertexElements md_numVertices].
      f_equal. f_equal.
      rewrite (strideOf_inStream _ 0 (retag_inStream 0 _)).
      rewrite retag_sizes. cbn [mElementList]. rewrite assignOffsets_sizes.
      rewrite (strideOf_inStream _ 0 Hall). reflexivity. }
    rewrite Hb0. cbn [lookup list_lookup mbind option_bind].
    rewrite Hstreams. cbn [lookup list_lookup default].
    unfold lockVertexBuffer, lockStorage, getVertexSize, HardwareBuffer.getNumVertices.
    cbn [vb_storage vb_vertexSize vb_numVertices].
    rewrite memcpy_whole.
    + cbn. do 2 eexists. split; [reflexivity|]. split; reflexivity.
    + exact Hr0.
    + rewrite length_zeros. reflexivity.
  - cbn [zip zip_with for_each length]. unfold ret.
    do 2 eexists. split; [reflexivity|]. split; [reflexivity|].
    unfold b0, allocated, held_v, getBuffers. cbn [mVertexBuffers].
    unfold singleStreamBuffers. rewrite Hhas.
    rewrite Hstreams. cbn. f_equal.
    assert (md_vertexElements d = []) as Hnil.
    { rewrite (hasStream_inStream d Hall) in Hhas.
      apply bool_decide_eq_false in Hhas. destruct (md_vertexElements d); [reflexivity|].
      exfalso. apply Hhas. discriminate. }
    unfold getStreamSize, getVertexStride in Hr0. rewrite Hnil in Hr0.
    cbn in Hr0. destruct r0; [reflexivity | discriminate].
Qed.

(** The scenario of the spec: one submesh of 6 indices, one stream of 4
    vertices of 12 bytes. *)
Lemma writeThenRead_quad :
  exists back this',
    writeThenRead Samples.quad Mesh_new = Done (GRD_MeshData back) this' /\
    md_indexBytes back = md_indexBytes Samples.quad /\
    md_streamBytes back = md_streamBytes Samples.quad.
Proof.
  apply (writeThenRead_singleStream Samples.quad Mesh_new).
  - vm_compute. split; reflexivity.
  - repeat constructor.
  - reflexivity.
Qed.

Lemma layoutOf_retag (elems : list VertexElement) (streamIdx : N) :
  inStream 0 elems ->
  layoutOf ((fun e => {| ve_streamIdx := 0; ve_offset := 0;
                         ve_type := ve_type e; ve_semantic := ve_semantic e;
                         ve_semanticIdx := ve_semanticIdx e |}) <$> elems) streamIdx
  = layoutOf elems streamIdx.
Proof.
  intros Hall. unfold layoutOf.
  induction Hall as [|e rest He Hrest IH]; [reflexivity|].
  cbn [fmap list_fmap]. rewrite !filter_cons. cbn [ve_streamIdx]. rewrite He.
  destruct (decide (0 = streamIdx)); cbn [fmap list_fmap]; [f_equal|]; exact IH.
Qed.

(** [endDesc] leaves regions of the sizes the description asks for. *)
Lemma wellSized_endDesc (d : MeshData) : wellSized (endDesc d).
Proof.
  split.
  - cbn. rewrite length_zeros. reflexivity.
  - cbn [endDesc set_streamBytes set_indexBytes md_streamBytes].
    rewrite <- !list_fmap_compose. apply list_fmap_ext.
    intros k i _. cbn. rewrite length_zeros. reflexivity.
Qed.

(** With one vertex buffer bound and every element of the declaration in
    stream 0, the container [allocateSubresourceBuffer] returns has the
    vertex count of the mesh, one submesh entry for each submesh of the mesh
    with its index count, the per-stream layout of the declaration, and
    regions of the sizes this description asks for. *)
Lemma allocate_singleStream_layout (subresourceIdx : N) (this : Mesh)
    held declaration indexType :
  mVertexData this = Some held ->
  vertexDeclaration held = Some declaration ->
  indexTypeOf this = Some indexType ->
  length (getBuffers held) = 1%nat ->
  inStream 0 (mElementList declaration) ->
  exists buffer,
    allocateSubresourceBuffer subresourceIdx this = Ok buffer /\
    md_numVertices buffer = vertexCount held /\
    md_subMeshes buffer = allocatedSubMeshes this /\
    (forall streamIdx,
       layoutOf (md_vertexElements buffer) streamIdx
       = layoutOf (mElementList declaration) streamIdx) /\
    wellSized buffer.
Proof.
  intros Hv Hd Hi Hone Hall.
  rewrite (allocateSubresourceBuffer_run _ _ _ _ _ Hv Hd Hi).
  eexists. split; [reflexivity|]. unfold allocated. rewrite Hone.
  split; [reflexivity|]. split; [reflexivity|]. split.
  - intros streamIdx. cbn [endDesc set_streamBytes set_indexBytes md_vertexElements].
    rewrite allocatedElements_one. apply layoutOf_retag. exact Hall.
  - apply wellSized_endDesc.
Qed.

(** ** Containers with more than one vertex stream *)

(** C8: on the mesh written from the two-stream sample, whose declaration has
    the position in stream 0 and the texture coordinate in stream 1,
    [allocateSubresourceBuffer] returns a container in which stream 0 and
    stream 1 each hold both elements: every element of the declaration is
    added to every stream, so the per-stream layout of the container is not
    the one of the declaration. *)
Theorem allocate_twoStreams_layout :
  exists held declaration buffer,
    mVertexData (Samples.meshOf Samples.twoStreams) = Some held /\
    vertexDeclaration held = Some declaration /\
    allocateSubresourceBuffer 0 (Samples.meshOf Samples.twoStreams) = Ok buffer /\
    layoutOf (mElementList declaration) 0 = [(VET_FLOAT1, VES_POSITION, 0)] /\
    layoutOf (mElementList declaration) 1 = [(VET_FLOAT1, VES_TEXCOORD, 0)] /\
    layoutOf (md_vertexElements buffer) 0
    = [(VET_FLOAT1, VES_POSITION, 0); (VET_FLOAT1, VES_TEXCOORD, 0)] /\
    layoutOf (md_vertexElements buffer) 1
    = [(VET_FLOAT1, VES_POSITION, 0); (VET_FLOAT1, VES_TEXCOORD, 0)] /\
    getStreamSize buffer 0 = 8 /\
    getStreamSize Samples.twoStreams 0 = 4.
Proof.
  do 3 eexists. vm_compute. repeat split.
Qed.

(** C1: writing the two-stream sample and reading it back into the container
    [allocateSubresourceBuffer] returns completes, gives back the index bytes
    of the sample, and gives back vertex streams that are not those of the
    sample: each stream of the container read into is 8 bytes long, the 4
    bytes written followed by 4 bytes the read never touches. *)
Theorem writeThenRead_twoStreams :
  exists back this',
    writeThenRead Samples.twoStreams Mesh_new = Done (GRD_MeshData back) this' /\
    md_indexBytes back = md_indexBytes Samples.twoStreams /\
    md_streamBytes back
    = [[Byte.x10; Byte.x11; Byte.x12; Byte.x13;
        Byte.x00; Byte.x00; Byte.x00; Byte.x00];
       [Byte.x20; Byte.x21; Byte.x22; Byte.x23;
        Byte.x00; Byte.x00; Byte.x00; Byte.x00]] /\
    md_streamBytes back <> md_streamBytes Samples.twoStreams.
Proof.
  do 2 eexists. vm_compute. repeat split. discriminate.
Qed.

(** The running counter: the bytes written to stream 1 are read back into
    stream 0, and the container read into has no stream 1. *)
Lemma writeThenRead_streamOneOnly :
  exists back this',
    writeThenRead Samples.streamOneOnly Mesh_new = Done (GRD_MeshData back) this' /\
    md_streamBytes Samples.streamOneOnly
    = [[]; [Byte.x20; Byte.x21; Byte.x22; Byte.x23]] /\
    md_streamBytes back = [[Byte.x20; Byte.x21; Byte.x22; Byte.x23]].
Proof.
  do 2 eexists. vm_compute. repeat split.
Qed.

(** ** Submesh draw data *)

Lemma lookup_inRange (this : Mesh) (subMeshIdx : N) :
  inRange subMeshIdx this ->
  exists subMesh, mSubMeshes this !! N.to_nat subMeshIdx = Some subMesh.
Proof.
  intros [_ Hlt]. apply lookup_lt_is_Some_2. lia.
Qed.

Lemma getSubMeshData_inRange (this : Mesh) (subMeshIdx : N) subMesh :
  mSubMeshes this !! N.to_nat subMeshIdx = Some subMesh ->
  getSubMeshData subMeshIdx this = Ok (bundleOf this subMesh).
Proof.
  intros Hsub. unfold getSubMeshData.
  pose proof (lookup_lt_Some _ _ _ Hsub) as Hlt.
  rewrite bool_decide_eq_false_2 by lia.
  rewrite bool_decide_eq_false_2 by lia.
  simpl. rewrite Hsub. reflexivity.
Qed.

Lemma getSubMeshData_outOfRange (this : Mesh) (subMeshIdx : N) :
  ~ inRange subMeshIdx this ->
  exists msg, getSubMeshData subMeshIdx this = Throw (InvalidParametersException msg).
Proof.
  intros Hout. unfold getSubMeshData.
  rewrite (bool_decide_eq_true_2 (_ <= subMeshIdx)).
  - rewrite orb_true_r. eexists. reflexivity.
  - unfold inRange in Hout. lia.
Qed.

(** C3: [getSubMeshData(index)] raises the exception reporting an invalid
    sub-mesh index exactly when [index] is outside [0, submeshCount); for an
    index inside the range it returns the bundle of the mesh's index data, the
    mesh's vertex data and the draw operation type of the submesh at that
    index. *)
Theorem getSubMeshData_range (this : Mesh) (subMeshIdx : N) :
  ((exists msg, getSubMeshData subMeshIdx this
                = Throw (InvalidParametersException msg)) <->
   ~ inRange subMeshIdx this) /\
  (inRange subMeshIdx this ->
   exists subMesh,
     mSubMeshes this !! N.to_nat subMeshIdx = Some subMesh /\
     getSubMeshData subMeshIdx this
     = Ok {| indexData := mIndexData this;
             vertexData := mVertexData this;
             useIndexes := true;
             operationType := drawOp subMesh |}).
Proof.
  split.
  - split.
    + intros [msg Hthrow] Hin.
      destruct (lookup_inRange _ _ Hin) as [subMesh Hsub].
      rewrite (getSubMeshData_inRange _ _ _ Hsub) in Hthrow. discriminate.
    + apply getSubMeshData_outOfRange.
  - intros Hin. destruct (lookup_inRange _ _ Hin) as [subMesh Hsub].
    exists subMesh. split; [exact Hsub|].
    apply getSubMeshData_inRange. exact Hsub.
Qed.

(** On the mesh of the three-submesh sample, which keeps two submeshes:
    index 1 is served, index 2 is refused. *)
Lemma getSubMeshData_range_witness :
  (exists subMesh,
     mSubMeshes (Samples.meshOf Samples.threeSubMeshes) !! 1%nat = Some subMesh /\
     getSubMeshData 1 (Samples.meshOf Samples.threeSubMeshes)
     = Ok (bundleOf (Samples.meshOf Samples.threeSubMeshes) subMesh)) /\
  (exists msg, getSubMeshData 2 (Samples.meshOf Samples.threeSubMeshes)
               = Throw (InvalidParametersException msg)).
Proof.
  split.
  - apply (proj2 (getSubMeshData_range (Samples.meshOf Samples.threeSubMeshes) 1)).
    vm_compute. split; [discriminate | reflexivity].
  - apply (proj1 (getSubMeshData_range (Samples.meshOf Samples.threeSubMeshes) 2)).
    vm_compute. intros [_ Hlt]. discriminate.
Defined.

(** C4: for every in-range submesh index the returned bundle holds the mesh's
    own index data and vertex data, whole: the index data keeps the start and
    the count of the mesh's index data, and two in-range indices get the same
    index data and vertex data. *)
Theorem getSubMeshData_whole_buffers (this : Mesh) (i j : N) :
  inRange i this -> inRange j this ->
  exists bundle_i bundle_j,
    getSubMeshData i this = Ok bundle_i /\
    getSubMeshData j this = Ok bundle_j /\
    indexData bundle_i = mIndexData this /\
    vertexData bundle_i = mVertexData this /\
    indexData bundle_i = indexData bundle_j /\
    vertexData bundle_i = vertexData bundle_j.
Proof.
  intros Hi Hj.
  destruct (lookup_inRange _ _ Hi) as [si Hsi].
  destruct (lookup_inRange _ _ Hj) as [sj Hsj].
  exists (bundleOf this si), (bundleOf this sj).
  rewrite (getSubMeshData_inRange _ _ _ Hsi), (getSubMeshData_inRange _ _ _ Hsj).
  repeat split.
Qed.

(** The two submeshes the three-submesh sample keeps, of 1 and 2 indices, both
    get the index data of all 3 indices. *)
Lemma getSubMeshData_whole_buffers_witness :
  exists bundle_0 bundle_1,
    getSubMeshData 0 (Samples.meshOf Samples.threeSubMeshes) = Ok bundle_0 /\
    getSubMeshData 1 (Samples.meshOf Samples.threeSubMeshes) = Ok bundle_1 /\
    indexData bundle_0 = mIndexData (Samples.meshOf Samples.threeSubMeshes) /\
    vertexData bundle_0 = mVertexData (Samples.meshOf Samples.threeSubMeshes) /\
    indexData bundle_0 = indexData bundle_1 /\
    vertexData bundle_0 = vertexData bundle_1.
Proof.
  apply (getSubMeshData_whole_buffers (Samples.meshOf Samples.threeSubMeshes) 0 1).
  - vm_compute. split; [discriminate | reflexivity].
  - vm_compute. split; [discriminate | reflexivity].
Defined.

(** ** Containers of the wrong type *)

(** C6: on a data container whose type id is not the one of mesh data,
    [writeSubresource] and [readSubresource] raise the exception reporting an
    invalid resource data type, and the mesh (submesh list, index data, vertex
    data) and the container are as they were before the call. *)
Theorem wrong_type_rejected (subresourceIdx : N) (data : GpuResourceData)
    (this : Mesh) :
  getTypeId data <> TID_MeshData ->
  writeSubresource true subresourceIdx data this
  = Raised (InvalidParametersException
              "Invalid GpuResourceData type. Only MeshData is supported.") this /\
  readSubresource true subresourceIdx (this, data)
  = Raised (InvalidParametersException
              "Invalid GpuResourceData type. Only MeshData is supported.")
      (this, data).
Proof.
  intros Hty. split.
  - unfold writeSubresource, THROW_IF_NOT_CORE_THREAD. simpl.
    rewrite bool_decide_eq_false_2 by exact Hty. reflexivity.
  - unfold readSubresource, THROW_IF_NOT_CORE_THREAD. simpl.
    unfold mbind, Op_bind, bind, get. simpl.
    rewrite bool_decide_eq_false_2 by exact Hty. reflexivity.
Qed.

(** A container of another class, offered to a mesh that holds data. *)
Lemma wrong_type_rejected_witness :
  writeSubresource true 0 (GRD_other 7 [Byte.x01]) (Samples.meshOf Samples.quad)
  = Raised (InvalidParametersException
              "Invalid GpuResourceData type. Only MeshData is supported.")
      (Samples.meshOf Samples.quad) /\
  readSubresource true 0 (Samples.meshOf Samples.quad, GRD_other 7 [Byte.x01])
  = Raised (InvalidParametersException
              "Invalid GpuResourceData type. Only MeshData is supported.")
      (Samples.meshOf Samples.quad, GRD_other 7 [Byte.x01]).
Proof.
  apply (wrong_type_rejected 0 (GRD_other 7 [Byte.x01]) (Samples.meshOf Samples.quad)).
  simpl. discriminate.
Defined.

(** ** The precondition of [allocateSubresourceBuffer] *)

(** C10: [allocateSubresourceBuffer] reads [mVertexData->vertexCount] before
    any null check: on a mesh without vertex data the call is undefined,
    whatever its index data is; a mesh as constructed has no vertex data; and
    the index data is null-checked: a mesh without index data but with vertex
    data (and its declaration) is served, with a 32-bit container without
    submeshes. *)
Theorem allocate_needs_vertex_data :
  (forall subresourceIdx this,
     mVertexData this = None ->
     allocateSubresourceBuffer subresourceIdx this = Undefined) /\
  mVertexData Mesh_new = None /\
  (forall subresourceIdx this held declaration,
     mIndexData this = None ->
     mVertexData this = Some held ->
     vertexDeclaration held = Some declaration ->
     exists buffer,
       allocateSubresourceBuffer subresourceIdx this = Ok buffer /\
       md_indexType buffer = IT_32BIT /\
       md_subMeshes buffer = []).
Proof.
  split; [|split].
  - intros idx this Hv. unfold allocateSubresourceBuffer.
    destruct (mIndexData this) as [held|]; simpl.
    + destruct (indexBuffer held); simpl; [rewrite Hv|]; reflexivity.
    + rewrite Hv. reflexivity.
  - reflexivity.
  - intros idx this held declaration Hi Hv Hd.
    rewrite (allocateSubresourceBuffer_run idx this held declaration IT_32BIT Hv Hd)
      by (unfold indexTypeOf; rewrite Hi; reflexivity).
    eexists. split; [reflexivity|]. split; [reflexivity|].
    cbn. unfold allocatedSubMeshes. rewrite Hi. reflexivity.
Qed.

(** The mesh [Mesh()] constructs, before any write. *)
Lemma allocate_needs_vertex_data_witness :
  allocateSubresourceBuffer 0 Mesh_new = Undefined.
Proof.
  apply (proj1 allocate_needs_vertex_data 0 Mesh_new).
  reflexivity.
Defined.

End MeshProps.

(** * Properties of the transfers between a container and the mesh *)

Module TransferProps.
Import HardwareBuffer CmIndexData CmVertexData CmMeshData CmMesh MeshSpec.
Import TransferSpec MeshProps.

(** ** What a write uploads *)

Lemma bindBuffer_fresh (i : N) (b : VertexBuffer) (m : list (N * VertexBuffer)) :
  Forall (fun kb => kb.1 < i) m -> bindBuffer i b m = m ++ [(i, b)].
Proof.
  intros Hall. induction Hall as [|[k b'] rest Hk Hrest IH]; [reflexivity|].
  simpl in *. rewrite bool_decide_eq_false_2 by lia.
  rewrite bool_decide_eq_false_2 by lia. rewrite IH. reflexivity.
Qed.

Lemma bindBuffer_last (i : N) (b b' : VertexBuffer) (m : list (N * VertexBuffer)) :
  Forall (fun kb => kb.1 < i) m -> bindBuffer i b' (m ++ [(i, b)]) = m ++ [(i, b')].
Proof.
  intros Hall. induction Hall as [|[k b0] rest Hk Hrest IH]; simpl in *.
  - rewrite bool_decide_eq_false_2 by lia. rewrite bool_decide_eq_true_2 by reflexivity.
    reflexivity.
  - rewrite bool_decide_eq_false_2 by lia.
    rewrite bool_decide_eq_false_2 by lia. rewrite IH. reflexivity.
Qed.

Lemma boundStream_wellSized (d : MeshData) (i : N) (held : VertexData) :
  wellSized d ->
  i < getMaxStreamIdx d + 1 ->
  vertexDeclaration held = createDeclaration d ->
  vertexCount held = md_numVertices d ->
  Forall (fun kb => kb.1 < i) (mVertexBuffers held) ->
  boundStream d i held
  = Some {| vertexCount := vertexCount held;
            vertexDeclaration := vertexDeclaration held;
            mVertexBuffers :=
              mVertexBuffers held ++
              (if hasStream d i then [(i, uploadedBuffer d i)] else []) |}.
Proof.
  intros Hw Hi Hdecl Hcount Hkeys. unfold boundStream.
  destruct (hasStream d i) eqn:Hhas; cbn [negb].
  - rewrite Hdecl. cbn [createDeclaration mbind option_bind].
    destruct (wellSized_stream d i Hw Hi) as (r & Hr & Hlen).
    unfold memcpyFrom, getStreamData, regionOf. rewrite Hr.
    cbn [mbind option_bind].
    rewrite memcpy_whole; [| exact Hlen |].
    + cbn [mbind option_bind]. f_equal. unfold setBuffer.
      cbn [vertexCount vertexDeclaration mVertexBuffers].
      rewrite (bindBuffer_fresh _ _ _ Hkeys), (bindBuffer_last _ _ _ _ Hkeys).
      rewrite Hdecl. f_equal. f_equal. f_equal. f_equal.
      unfold uploadedBuffer, unlockVertexBuffer, createVertexBuffer.
      cbn. unfold getDeclVertexSize. cbn. rewrite strideOf_assignOffsets, Hcount, Hr.
      reflexivity.
    + unfold lockVertexBuffer, lockStorage, createVertexBuffer. cbn.
      rewrite !length_zeros. unfold getDeclVertexSize. cbn.
      rewrite strideOf_assignOffsets, Hcount. reflexivity.
  - rewrite app_nil_r. destruct held; reflexivity.
Qed.

Lemma boundStreams_wellSized (d : MeshData) (n : nat) :
  wellSized d ->
  forall (k : nat) (held : VertexData),
    (k + n <= N.to_nat (getMaxStreamIdx d + 1))%nat ->
    vertexDeclaration held = createDeclaration d ->
    vertexCount held = md_numVertices d ->
    Forall (fun kb => kb.1 < N.of_nat k) (mVertexBuffers held) ->
    boundStreams d (N.of_nat <$> seq k n) held
    = Some {| vertexCount := vertexCount held;
              vertexDeclaration := vertexDeclaration held;
              mVertexBuffers :=
                mVertexBuffers held ++
                ((fun i => (i, uploadedBuffer d i))
                   <$> filter (fun i => hasStream d i = true) (N.of_nat <$> seq k n)) |}.
Proof.
  intros Hw. induction n as [|n IH]; intros k held Hk Hdecl Hcount Hkeys.
  - simpl. rewrite app_nil_r. destruct held; reflexivity.
  - cbn [seq fmap list_fmap boundStreams].
    rewrite (boundStream_wellSized d (N.of_nat k) held Hw) by (try assumption; lia).
    cbn [mbind option_bind].
    rewrite IH; cbn [vertexCount vertexDeclaration mVertexBuffers]; try assumption; try lia.
    + f_equal. f_equal. rewrite filter_cons.
      destruct (hasStream d (N.of_nat k)) eqn:Hhas.
      * rewrite decide_True by reflexivity. cbn [fmap list_fmap].
        rewrite <- app_assoc. reflexivity.
      * rewrite decide_False by discriminate. rewrite app_nil_r. reflexivity.
    + apply Forall_app. split.
      * eapply Forall_impl; [exact Hkeys|]. intros kb Hkb. simpl in *. lia.
      * destruct (hasStream d (N.of_nat k)); repeat constructor. simpl. lia.
Qed.

Lemma writtenVertexData_wellSized (d : MeshData) :
  wellSized d -> writtenVertexData d = Some (uploadedVertexData d).
Proof.
  intros Hw. unfold writtenVertexData, range.
  rewrite (boundStreams_wellSized d _ Hw 0%nat); try reflexivity; try lia.
  constructor.
Qed.

Lemma writtenMesh_uploaded (d : MeshData) :
  wellSized d ->
  writtenMesh d = Some {| mVertexData := Some (uploadedVertexData d);
                          mIndexData := Some (uploadedIndexData d);
                          mSubMeshes := keptSubMeshes d |}.
Proof.
  intros Hw. unfold writtenMesh.
  rewrite (writtenIndexData_wellSized d Hw), (writtenVertexData_wellSized d Hw).
  reflexivity.
Qed.



(** X2: on the core thread, a write of a well-sized container succeeds and
    leaves vertex data with the container's vertex count and declaration and
    one static vertex buffer for each populated stream up to the highest
    stream index, bound under the index of its stream, with the stride of that
    stream as vertex size and the bytes of that stream as content; a stream
    without elements gets no buffer. *)
Theorem write_uploads_vertices (subresourceIdx : N) (d : MeshData) (this : Mesh) :
  wellSized d ->
  exists this',
    writeSubresource true subresourceIdx (GRD_MeshData d) this = Done tt this' /\
    mVertexData this'
    = Some {| vertexCount := getNumVertices d;
              vertexDeclaration := createDeclaration d;
              mVertexBuffers :=
                (fun i => (i, {| vb_vertexSize := getVertexStride d i;
                                 vb_numVertices := md_numVertices d;
                                 vb_usage := GBU_STATIC;
                                 vb_storage := default [] (md_streamBytes d !! N.to_nat i) |}))
                  <$> filter (fun i => hasStream d i = true)
                        (range (getMaxStreamIdx d + 1)) |}.
Proof.
  intros Hw. rewrite writeSubresource_run, (writtenMesh_uploaded d Hw).
  eexists. split; reflexivity.
Qed.

(** A container whose stream 0 is empty: one buffer, bound under 1. *)
Lemma write_uploads_vertices_witness :
  exists this',
    writeSubresource true 0 (GRD_MeshData Samples.streamOneOnly) Mesh_new
    = Done tt this' /\
    mVertexData this'
    = Some {| vertexCount := getNumVertices Samples.streamOneOnly;
              vertexDeclaration := createDeclaration Samples.streamOneOnly;
              mVertexBuffers :=
                (fun i => (i, {| vb_vertexSize := getVertexStride Samples.streamOneOnly i;
                                 vb_numVertices := md_numVertices Samples.streamOneOnly;
                                 vb_usage := GBU_STATIC;
                                 vb_storage :=
                                   default [] (md_streamBytes Samples.streamOneOnly
                                                 !! N.to_nat i) |}))
                  <$> filter (fun i => hasStream Samples.streamOneOnly i = true)
                        (range (getMaxStreamIdx Samples.streamOneOnly + 1)) |}.
Proof.
  apply (write_uploads_vertices 0 Samples.streamOneOnly Mesh_new).
  vm_compute. split; reflexivity.
Defined.

(** X3: a write that raises an exception, on any thread and for any data,
    leaves the mesh as it was: both checks come before the first assignment
    to a member. *)
Theorem write_exception_safe (onCoreThread : bool) (subresourceIdx : N)
    (data : GpuResourceData) (this : Mesh) :
  match writeSubresource onCoreThread subresourceIdx data this with
  | Done _ _ => True
  | Raised _ this' => this' = this
  | UB => True
  end.
Proof.
  destruct onCoreThread; [|reflexivity].
  destruct data as [d | n payload]; [|reflexivity].
  rewrite writeSubresource_run. destruct (writtenMesh d); exact I.
Qed.

(** ** A write, then an allocation *)

Lemma boundStream_keeps (d : MeshData) (i : N) (held held' : VertexData) :
  boundStream d i held = Some held' ->
  vertexDeclaration held' = vertexDeclaration held /\
  vertexCount held' = vertexCount held.
Proof.
  unfold boundStream. destruct (negb (hasStream d i)).
  - intros [= <-]. split; reflexivity.
  - destruct (vertexDeclaration held) as [decl|] eqn:Hd; [|discriminate].
    cbn [mbind option_bind].
    destruct (memcpyFrom _ _ _ _) as [bytes|]; [|discriminate].
    cbn [mbind option_bind]. intros [= <-]. cbn. rewrite Hd. split; reflexivity.
Qed.

Lemma boundStreams_keeps (d : MeshData) (idxs : list N) (held held' : VertexData) :
  boundStreams d idxs held = Some held' ->
  vertexDeclaration held' = vertexDeclaration held /\
  vertexCount held' = vertexCount held.
Proof.
  revert held. induction idxs as [|i rest IH]; intros held; cbn [boundStreams].
  - intros [= <-]. split; reflexivity.
  - destruct (boundStream d i held) as [held1|] eqn:H1; [|discriminate].
    cbn [mbind option_bind]. intros Hrest.
    destruct (boundStream_keeps _ _ _ _ H1) as [<- <-].
    apply IH. exact Hrest.
Qed.

Lemma writtenMesh_parts (d : MeshData) (this' : Mesh) :
  writtenMesh d = Some this' ->
  exists held_v held_i buffer,
    mVertexData this' = Some held_v /\
    vertexDeclaration held_v = createDeclaration d /\
    vertexCount held_v = getNumVertices d /\
    mIndexData this' = Some held_i /\
    indexBuffer held_i = Some buffer /\
    getType buffer = getIndexType d /\
    mSubMeshes this' = keptSubMeshes d.
Proof.
  unfold writtenMesh.
  destruct (writtenIndexData d) as [held_i|] eqn:Hi; [|discriminate].
  destruct (writtenVertexData d) as [held_v|] eqn:Hv; [|discriminate].
  cbn [mbind option_bind]. intros [= <-].
  unfold writtenVertexData in Hv. apply boundStreams_keeps in Hv as [Hdecl Hcount].
  unfold writtenIndexData in Hi.
  destruct (memcpyFrom _ _ _ _) as [bytes|]; [|discriminate].
  cbn [mbind option_bind] in Hi. injection Hi as <-.
  do 3 eexists. repeat split; try reflexivity; assumption.
Qed.

Lemma allocate_written (subresourceIdx : N) (d : MeshData) (this' : Mesh) :
  writtenMesh d = Some this' ->
  exists buffer,
    allocateSubresourceBuffer subresourceIdx this' = Ok buffer /\
    md_numVertices buffer = getNumVertices d /\
    md_indexType buffer = getIndexType d /\
    ied_numIndices <$> md_subMeshes buffer = indexCount <$> keptSubMeshes d /\
    wellSized buffer.
Proof.
  intros Hm.
  destruct (writtenMesh_parts d this' Hm)
    as (held_v & held_i & buffer & Hv & Hdecl & Hcount & Hi & Hb & Hty & Hsub).
  rewrite (allocateSubresourceBuffer_run subresourceIdx this' held_v
             {| mElementList := assignOffsets [] (md_vertexElements d) |}
             (getIndexType d) Hv Hdecl).
  - eexists. split; [reflexivity|]. unfold allocated.
    split; [exact Hcount|]. split; [reflexivity|]. split.
    + cbn. unfold allocatedSubMeshes. rewrite Hi, Hsub, <- list_fmap_compose. reflexivity.
    + apply wellSized_endDesc.
  - unfold indexTypeOf. rewrite Hi, Hb. cbn. rewrite Hty. reflexivity.
Qed.

(** X4: after any write that succeeded, [allocateSubresourceBuffer] succeeds
    on the mesh, and the container it returns has the vertex count and the
    index type of the container written, one submesh for each submesh kept
    with the same number of indices, and regions of the sizes its description
    asks for. *)
Theorem write_then_allocate (subresourceIdx subresourceIdx' : N) (d : MeshData)
    (this this' : Mesh) :
  writeSubresource true subresourceIdx (GRD_MeshData d) this = Done tt this' ->
  exists buffer,
    allocateSubresourceBuffer subresourceIdx' this' = Ok buffer /\
    md_numVertices buffer = getNumVertices d /\
    md_indexType buffer = getIndexType d /\
    ied_numIndices <$> md_subMeshes buffer = indexCount <$> keptSubMeshes d /\
    wellSized buffer.
Proof.
  rewrite writeSubresource_run.
  destruct (writtenMesh d) as [m|] eqn:Hm; [|discriminate]. intros [= ->].
  apply allocate_written. exact Hm.
Qed.

(** The three submeshes, of which the write keeps two. *)
Lemma write_then_allocate_witness :
  exists buffer,
    allocateSubresourceBuffer 0 (Samples.meshOf Samples.threeSubMeshes) = Ok buffer /\
    md_numVertices buffer = getNumVertices Samples.threeSubMeshes /\
    md_indexType buffer = getIndexType Samples.threeSubMeshes /\
    ied_numIndices <$> md_subMeshes buffer
    = indexCount <$> keptSubMeshes Samples.threeSubMeshes /\
    wellSized buffer.
Proof.
  apply (write_then_allocate 0 0 Samples.threeSubMeshes Mesh_new
           (Samples.meshOf Samples.threeSubMeshes)).
  vm_compute. reflexivity.
Defined.

Lemma allocate_subMesh_loop (this : Mesh) (d0 : MeshData) :
  rfoldl (fun meshData i =>
            subMesh ← rderef (mSubMeshes this !! N.to_nat i);
            Ok (addSubMesh (indexCount subMesh) i DOT_TRIANGLE_LIST meshData))
    d0 (range (N.of_nat (length (mSubMeshes this))))
  = Ok (foldl (fun meshData ix => addSubMesh ix.2 ix.1 DOT_TRIANGLE_LIST meshData)
          d0 (zip (range (N.of_nat (length (indexCount <$> mSubMeshes this))))
                (indexCount <$> mSubMeshes this))).
Proof.
  rewrite (rfoldl_lookup (fun meshData i subMesh =>
             addSubMesh (indexCount subMesh) i DOT_TRIANGLE_LIST meshData)).
  f_equal. rewrite length_fmap. unfold range. rewrite Nat2N.id.
  generalize 0%nat as k. generalize d0.
  induction (mSubMeshes this) as [|s rest IH]; intros d1 k; [reflexivity|].
  simpl. apply IH.
Qed.

(** X5: of the submeshes of the mesh, [allocateSubresourceBuffer] reads the
    index counts only: two meshes with the same vertex and index data whose
    submeshes have the same index counts, whatever their index offsets and
    draw operations, get the same container (or the same failure). *)
Theorem allocate_reads_counts_only (subresourceIdx : N) (a b : Mesh) :
  mVertexData a = mVertexData b ->
  mIndexData a = mIndexData b ->
  indexCount <$> mSubMeshes a = indexCount <$> mSubMeshes b ->
  allocateSubresourceBuffer subresourceIdx a = allocateSubresourceBuffer subresourceIdx b.
Proof.
  intros Hv Hi Hc. unfold allocateSubresourceBuffer.
  rewrite Hv, Hi.
  destruct (mIndexData b) as [held_i|]; [|reflexivity].
  destruct (rderef (indexBuffer held_i) ≫= λ buffer, Ok (getType buffer))
    as [indexType| |]; cbn [mbind result_bind rbind]; try reflexivity.
  destruct (mVertexData b) as [held_v|]; cbn [rderef mbind result_bind rbind];
    [|reflexivity].
  rewrite !allocate_subMesh_loop, Hc. reflexivity.
Qed.

(** The mesh of the three submeshes, and the same mesh with other offsets and
    draw operations. *)
Lemma allocate_reads_counts_only_witness :
  allocateSubresourceBuffer 0 (Samples.meshOf Samples.threeSubMeshes)
  = allocateSubresourceBuffer 0
      (set_mSubMeshes
         [{| indexOffset := 7; indexCount := 1; drawOp := DOT_TRIANGLE_STRIP |};
          {| indexOffset := 0; indexCount := 2; drawOp := DOT_POINT_LIST |}]
         (Samples.meshOf Samples.threeSubMeshes)).
Proof.
  apply (allocate_reads_counts_only 0 (Samples.meshOf Samples.threeSubMeshes)
           (set_mSubMeshes
              [{| indexOffset := 7; indexCount := 1; drawOp := DOT_TRIANGLE_STRIP |};
               {| indexOffset := 0; indexCount := 2; drawOp := DOT_POINT_LIST |}]
              (Samples.meshOf Samples.threeSubMeshes))).
  - reflexivity.
  - reflexivity.
  - vm_compute. reflexivity.
Defined.

(** X6: after a write that succeeded, [getSubMeshData] counts the submeshes
    the write kept, not those of the container: at an index below the number
    of submeshes with indices it returns the mesh's index and vertex data with
    the draw operation of that kept submesh, at any other index it throws the
    invalid-parameter exception. *)
Theorem getSubMeshData_after_write (subresourceIdx : N) (d : MeshData)
    (this this' : Mesh) (subMeshIdx : N) :
  writeSubresource true subresourceIdx (GRD_MeshData d) this = Done tt this' ->
  match keptSubMeshes d !! N.to_nat subMeshIdx with
  | Some kept =>
      getSubMeshData subMeshIdx this'
      = Ok {| indexData := mIndexData this'; vertexData := mVertexData this';
              useIndexes := true; operationType := drawOp kept |}
  | None =>
      exists msg, getSubMeshData subMeshIdx this' = Throw (InvalidParametersException msg)
  end.
Proof.
  rewrite writeSubresource_run.
  destruct (writtenMesh d) as [m|] eqn:Hm; [|discriminate]. intros [= ->].
  destruct (writtenMesh_parts d this' Hm) as (_ & _ & _ & _ & _ & _ & _ & _ & _ & Hsub).
  destruct (keptSubMeshes d !! N.to_nat subMeshIdx) as [kept|] eqn:Hk.
  - apply getSubMeshData_inRange. rewrite Hsub. exact Hk.
  - apply getSubMeshData_outOfRange. unfold inRange. rewrite Hsub.
    apply lookup_ge_None in Hk. lia.
Qed.

(** Index 1 of the three submeshes is the third of the container: the second
    has no indices and is not kept. *)
Lemma getSubMeshData_after_write_witness :
  getSubMeshData 1 (Samples.meshOf Samples.threeSubMeshes)
  = Ok {| indexData := mIndexData (Samples.meshOf Samples.threeSubMeshes);
          vertexData := mVertexData (Samples.meshOf Samples.threeSubMeshes);
          useIndexes := true; operationType := DOT_LINE_LIST |}.
Proof.
  apply (getSubMeshData_after_write 0 Samples.threeSubMeshes Mesh_new
           (Samples.meshOf Samples.threeSubMeshes) 1).
  vm_compute. reflexivity.
Defined.

(** ** What a read does to its arguments *)

Lemma ensures_bind {S A B} (Inv : S -> Prop) (c : Op S A) (k : A -> Op S B) (s : S) :
  ensures Inv (c s) ->
  (forall a s', Inv s' -> ensures Inv (k a s')) ->
  ensures Inv ((c ≫= k) s).
Proof.
  intros Hc Hk. unfold mbind, Op_bind, bind.
  destruct (c s) as [a s'| |]; simpl in *; [apply Hk; exact Hc | contradiction | exact I].
Qed.

Lemma ensures_for_each {S I} (Inv : S -> Prop) (body : I -> Op S unit) (idxs : list I) :
  (forall i s, Inv s -> ensures Inv (body i s)) ->
  forall s, Inv s -> ensures Inv (for_each idxs body s).
Proof.
  intros Hbody. induction idxs as [|i rest IH]; intros s Hs; [exact Hs|].
  cbn [for_each]. apply ensures_bind; [apply Hbody; exact Hs|].
  intros _ s' Hs'. apply IH. exact Hs'.
Qed.

Lemma ensures_deref {S A} (Inv : S -> Prop) (p : option A) (s : S) :
  Inv s -> ensures Inv (deref p s).
Proof. intros Hs. destruct p; [exact Hs | exact I]. Qed.

Lemma sameShape_refl (d : MeshData) : sameShape d d.
Proof. repeat split. Qed.

Lemma length_memcpy (dst src r : list byte) (dstOff srcOff n : N) :
  memcpy dst dstOff src srcOff n = Some r -> length r = length dst.
Proof.
  unfold memcpy.
  destruct (bool_decide (srcOff + n <= N.of_nat (length src))) eqn:Hs; [|discriminate].
  destruct (bool_decide (dstOff + n <= N.of_nat (length dst))) eqn:Hd; [|discriminate].
  apply bool_decide_eq_true in Hs, Hd. cbn [andb]. intros [= <-].
  rewrite !length_app, !length_take, !length_drop. lia.
Qed.

Lemma sameShape_memcpyInto (d d' d'' : MeshData) (p : BytePtr) (src : list byte)
    (srcOff n : N) :
  sameShape d d' -> memcpyInto d' p src srcOff n = Some d'' -> sameShape d d''.
Proof.
  intros (Hn & Ht & He & Hs & Hi & Hv). unfold memcpyInto. destruct p as [off | i off].
  - destruct (memcpy _ _ _ _ _) as [bytes|] eqn:Hm; [|discriminate].
    cbn [mbind option_bind]. intros [= <-]. apply length_memcpy in Hm.
    repeat split; cbn; congruence.
  - destruct (md_streamBytes d' !! N.to_nat i) as [r|] eqn:Hr; [|discriminate].
    cbn [mbind option_bind].
    destruct (memcpy _ _ _ _ _) as [bytes|] eqn:Hm; [|discriminate].
    cbn [mbind option_bind]. intros [= <-]. apply length_memcpy in Hm.
    repeat split; cbn; try congruence.
    rewrite <- Hv. rewrite list_fmap_insert.
    apply list_insert_id. rewrite list_lookup_fmap, Hr. cbn. congruence.
Qed.

Lemma copyIntoData_readInto (this : Mesh) (d : MeshData) (dest : BytePtr)
    (src : list byte) (srcOff n : N) s :
  readInto this d s -> ensures (readInto this d) (copyIntoData dest src srcOff n s).
Proof.
  intros (d' & -> & Hshape). rewrite copyIntoData_run.
  destruct (memcpyInto d' dest src srcOff n) as [d''|] eqn:Hm; [|exact I].
  exists d''. split; [reflexivity|]. eapply sameShape_memcpyInto; eassumption.
Qed.

Lemma theMeshData_readInto (this : Mesh) (d : MeshData) s :
  readInto this d s -> exists d', theMeshData s = Done d' s.
Proof. intros (d' & -> & _). exists d'. reflexivity. Qed.

Lemma readSubMeshIndices_readInto (this held : Mesh) (d : MeshData)
    (indexType : IndexType) (idxData : list byte) (idxElemSize i : N) s :
  readInto this d s ->
  ensures (readInto this d) (readSubMeshIndices held indexType idxData idxElemSize i s).
Proof.
  intros Hs. unfold readSubMeshIndices.
  destruct (theMeshData_readInto this d s Hs) as [d' Hd'].
  unfold mbind at 1, Op_bind, bind. rewrite Hd'.
  apply ensures_bind; [apply ensures_deref; exact Hs|].
  intros subMesh s' Hs'. apply copyIntoData_readInto. exact Hs'.
Qed.

Lemma readVertexStream_readInto (this : Mesh) (d : MeshData)
    (visit : N * (N * VertexBuffer)) s :
  readInto this d s -> ensures (readInto this d) (readVertexStream visit s).
Proof.
  intros Hs. unfold readVertexStream.
  destruct (theMeshData_readInto this d s Hs) as [d' Hd'].
  unfold mbind at 1, Op_bind, bind. rewrite Hd'.
  apply copyIntoData_readInto. exact Hs.
Qed.

Lemma readSubresource_readInto (subresourceIdx : N) (this : Mesh) (d : MeshData) :
  ensures (readInto this d) (readSubresource true subresourceIdx (this, GRD_MeshData d)).
Proof.
  assert (Hs : readInto this d (this, GRD_MeshData d))
    by (exists d; split; [reflexivity | apply sameShape_refl]).
  unfold readSubresource, THROW_IF_NOT_CORE_THREAD.
  apply ensures_bind; [exact Hs|]. clear Hs. intros _ s1 Hs1.
  unfold mbind at 1, Op_bind, bind, get.
  destruct Hs1 as (d1 & -> & Hshape). cbn [fst snd getTypeId].
  rewrite bool_decide_eq_true_2 by reflexivity. cbn [negb].
  assert (Hs : readInto this d (this, GRD_MeshData d1))
    by (exists d1; split; [reflexivity | exact Hshape]).
  apply ensures_bind.
  { destruct (mIndexData this) as [held|]; [|exact Hs].
    apply ensures_bind; [apply ensures_deref; exact Hs|]. intros buffer s' Hs'. exact Hs'. }
  intros indexType s2 Hs2. apply ensures_bind.
  { destruct (mIndexData this) as [held|]; [|exact Hs2].
    apply ensures_bind; [apply ensures_deref; exact Hs2|]. intros buffer s' Hs'.
    apply ensures_for_each; [|exact Hs'].
    intros i s'' Hs''. apply readSubMeshIndices_readInto. exact Hs''. }
  intros _ s3 Hs3.
  destruct (mVertexData this) as [held|]; [|exact Hs3].
  apply ensures_for_each; [|exact Hs3].
  intros visit s' Hs'. apply readVertexStream_readInto. exact Hs'.
Qed.

(** X7: on the core thread, a read into a mesh-data container never raises an
    exception, and when it returns the mesh is as it was and the container has
    the description it had (vertex count, index type, vertex elements,
    submeshes) and regions of the sizes they had: the read overwrites bytes in
    place and nothing else. *)
Theorem read_overwrites_in_place (subresourceIdx : N) (this : Mesh) (d : MeshData) :
  match readSubresource true subresourceIdx (this, GRD_MeshData d) with
  | Done _ s' => exists d', s' = (this, GRD_MeshData d') /\ sameShape d d'
  | Raised _ _ => False
  | UB => True
  end.
Proof. exact (readSubresource_readInto subresourceIdx this d). Qed.

(** X8: a read never changes the mesh, on any thread and for any data: when it
    returns the mesh is the one it was called on, and when it raises an
    exception both the mesh and the container are as they were. *)
Theorem read_keeps_mesh (onCoreThread : bool) (subresourceIdx : N) (this : Mesh)
    (data : GpuResourceData) :
  match readSubresource onCoreThread subresourceIdx (this, data) with
  | Done _ s' => fst s' = this
  | Raised _ s' => s' = (this, data)
  | UB => True
  end.
Proof.
  destruct onCoreThread; [|reflexivity].
  destruct data as [d | n payload]; [|reflexivity].
  pose proof (readSubresource_readInto subresourceIdx this d) as H.
  destruct (readSubresource true subresourceIdx (this, GRD_MeshData d)) as [a s'|e s'|];
    cbn [ensures] in H; [|contradiction|exact I].
  destruct H as (d' & -> & _). reflexivity.
Qed.

(** X9: on a mesh without index data and without vertex data, a read of a
    mesh-data container succeeds and copies nothing: both pointers are
    null-checked. *)
Theorem read_without_data (subresourceIdx : N) (this : Mesh) (d : MeshData) :
  mIndexData this = None ->
  mVertexData this = None ->
  readSubresource true subresourceIdx (this, GRD_MeshData d)
  = Done tt (this, GRD_MeshData d).
Proof.
  intros Hi Hv. unfold readSubresource, THROW_IF_NOT_CORE_THREAD.
  unfold mbind, Op_bind, bind, ret, get. cbn [fst snd getTypeId].
  rewrite bool_decide_eq_true_2 by reflexivity. cbn [negb].
  rewrite Hi, Hv. reflexivity.
Qed.

(** A mesh as constructed. *)
Lemma read_without_data_witness :
  readSubresource true 0 (Mesh_new, GRD_MeshData Samples.quad)
  = Done tt (Mesh_new, GRD_MeshData Samples.quad).
Proof.
  apply (read_without_data 0 Mesh_new Samples.quad); reflexivity.
Defined.

Lemma wellSized_sameShape (d d' : MeshData) :
  sameShape d d' -> wellSized d -> wellSized d'.
Proof.
  intros (Hn & Ht & He & Hs & Hi & Hv) [Hwi Hws]. split.
  - rewrite Hi, Hwi. unfold getIndexBufferSize, getNumIndices, getIndexElementSize.
    rewrite Hs, Ht. reflexivity.
  - rewrite Hv, Hws. unfold getMaxStreamIdx, getStreamSize, getVertexStride.
    rewrite He, Hn. reflexivity.
Qed.

(** ** A write, an allocation, then a read *)

Lemma for_each_completes {S I} (Inv : S -> Prop) (P : I -> Prop) (body : I -> Op S unit)
    (idxs : list I) :
  (forall i s, P i -> Inv s -> completes Inv (body i s)) ->
  Forall P idxs ->
  forall s, Inv s -> completes Inv (for_each idxs body s).
Proof.
  intros Hbody Hall. induction Hall as [|i rest Hi Hrest IH]; intros s Hs; [exact Hs|].
  cbn [for_each]. unfold mbind, Op_bind, bind.
  pose proof (Hbody i s Hi Hs) as Hstep.
  destruct (body i s) as [a s'| |]; simpl in Hstep; try contradiction.
  apply IH. exact Hstep.
Qed.

Lemma Forall_zip {A B} (P : A -> Prop) (Q : B -> Prop) (l1 : list A) (l2 : list B) :
  Forall P l1 -> Forall Q l2 -> Forall (fun ab => P ab.1 /\ Q ab.2) (zip l1 l2).
Proof.
  intros H1. revert l2. induction H1 as [|a l1 Ha Hl1 IH]; intros l2 H2; [constructor|].
  destruct H2 as [|b l2 Hb Hl2]; [constructor|].
  cbn. constructor; [split; assumption | apply IH; assumption].
Qed.

Lemma NoDup_range (n : N) : NoDup (range n).
Proof.
  unfold range. apply NoDup_fmap_2; [intros a b Hab; lia | apply NoDup_seq].
Qed.

Lemma filter_movedTo (j s : N) (l : list VertexElement) :
  filter (fun e => ve_streamIdx e = j) (movedTo s <$> l)
  = if decide (s = j) then movedTo s <$> l else [].
Proof.
  induction l as [|e l IH]; [destruct (decide (s = j)); reflexivity|].
  cbn [fmap list_fmap]. rewrite filter_cons. cbn [movedTo ve_streamIdx].
  fold (movedTo s e).
  destruct (decide (s = j)); [f_equal|]; exact IH.
Qed.

Lemma filter_allocated_none (j : N) (l : list VertexElement) (idxs : list N) :
  j ∉ idxs ->
  filter (fun e => ve_streamIdx e = j) (mjoin ((fun s => movedTo s <$> l) <$> idxs)) = [].
Proof.
  induction idxs as [|s rest IH]; intros Hj; [reflexivity|].
  change (mjoin ((fun s => movedTo s <$> l) <$> s :: rest))
    with ((movedTo s <$> l) ++ mjoin ((fun s => movedTo s <$> l) <$> rest)).
  rewrite filter_app, filter_movedTo.
  rewrite decide_False by (intros ->; apply Hj; left).
  apply IH. intros Hin. apply Hj. right. exact Hin.
Qed.

Lemma filter_allocated (j : N) (l : list VertexElement) (idxs : list N) :
  NoDup idxs -> j ∈ idxs ->
  filter (fun e => ve_streamIdx e = j) (mjoin ((fun s => movedTo s <$> l) <$> idxs))
  = movedTo j <$> l.
Proof.
  intros Hnd. induction Hnd as [|s rest Hs Hrest IH]; intros Hj.
  - inversion Hj.
  - change (mjoin ((fun s => movedTo s <$> l) <$> s :: rest))
      with ((movedTo s <$> l) ++ mjoin ((fun s => movedTo s <$> l) <$> rest)).
    rewrite filter_app, filter_movedTo.
    destruct (decide (s = j)) as [->|Hne].
    + rewrite (filter_allocated_none j l rest Hs). apply app_nil_r.
    + apply IH. inversion Hj; subst; [contradiction | assumption].
Qed.

Lemma movedTo_sizes (s : N) (l : list VertexElement) :
  getSize <$> (movedTo s <$> l) = getSize <$> l.
Proof. rewrite <- list_fmap_compose. reflexivity. Qed.

Lemma strideOf_allocated (k : nat) (l : list VertexElement) (j : N) :
  j < N.of_nat k ->
  strideOf (allocatedElements k l) j = u32 (sumN (getSize <$> l)).
Proof.
  intros Hj. unfold strideOf, allocatedElements. f_equal.
  change (fun streamIdx : N => _) with (fun s => movedTo s <$> l).
  rewrite (filter_allocated j l (range (N.of_nat k))).
  - rewrite movedTo_sizes. reflexivity.
  - apply NoDup_range.
  - apply elem_of_range. exact Hj.
Qed.

Lemma maxStream_ge (l : list VertexElement) (e : VertexElement) :
  e ∈ l -> ve_streamIdx e <= foldr N.max 0 (ve_streamIdx <$> l).
Proof.
  induction 1 as [e l | e e' l Hin IH]; cbn; lia.
Qed.

Lemma maxStream_allocated (k : nat) (l : list VertexElement) (j : N) :
  l <> [] -> j < N.of_nat k ->
  j <= foldr N.max 0 (ve_streamIdx <$> allocatedElements k l).
Proof.
  intros Hl Hj. destruct l as [|e l]; [contradiction|].
  change j with (ve_streamIdx (movedTo j e)). apply maxStream_ge.
  unfold allocatedElements. apply list_elem_of_join.
  exists (movedTo j <$> (e :: l)). split; [left|].
  apply list_elem_of_fmap. exists j. split; [reflexivity|].
  apply elem_of_range. exact Hj.
Qed.

Lemma strideOf_le (l : list VertexElement) (i : N) :
  strideOf l i <= sumN (getSize <$> l).
Proof.
  unfold strideOf, u32. etransitivity; [apply N.Div0.mod_le|].
  induction l as [|e l IH]; [reflexivity|].
  rewrite filter_cons. destruct (decide (ve_streamIdx e = i)); cbn in *; unfold sumN in *; cbn; lia.
Qed.

Lemma hasStream_nonempty (d : MeshData) (i : N) :
  hasStream d i = true -> md_vertexElements d <> [].
Proof. unfold hasStream. destruct (md_vertexElements d); [discriminate | discriminate]. Qed.

Lemma assignOffsets_nonempty (before l : list VertexElement) :
  l <> [] -> assignOffsets before l <> [].
Proof. destruct l; [contradiction | discriminate]. Qed.

Lemma memcpy_prefix (dst src : list byte) (n : N) :
  n <= N.of_nat (length src) -> n <= N.of_nat (length dst) ->
  exists bytes, memcpy dst 0 src 0 n = Some bytes /\ length bytes = length dst.
Proof.
  intros Hs Hd. destruct (memcpy dst 0 src 0 n) as [bytes|] eqn:Hm.
  - exists bytes. split; [reflexivity|]. eapply length_memcpy. exact Hm.
  - unfold memcpy in Hm. rewrite !bool_decide_eq_true_2 in Hm by lia. discriminate.
Qed.

Lemma readVertexStream_completes (this : Mesh) (stored : list byte) (b0 : MeshData)
    (visit : N * (N * VertexBuffer)) s :
  (exists r, md_streamBytes b0 !! N.to_nat visit.1 = Some r /\
             u32 (getVertexSize visit.2.2 * HardwareBuffer.getNumVertices visit.2.2)
             <= N.of_nat (length r)) ->
  u32 (getVertexSize visit.2.2 * HardwareBuffer.getNumVertices visit.2.2)
  <= N.of_nat (length (vb_storage visit.2.2)) ->
  readingStreams this stored b0 s ->
  completes (readingStreams this stored b0) (readVertexStream visit s).
Proof.
  intros (r & Hr & Hn) Hsrc (cur & -> & Hidx & Hlens).
  unfold readVertexStream. unfold mbind, Op_bind, bind.
  rewrite theMeshData_run, copyIntoData_run.
  unfold memcpyInto, getStreamData.
  assert (exists r', md_streamBytes cur !! N.to_nat visit.1 = Some r' /\
                     length r' = length r) as (r' & Hr' & Hlen').
  { assert ((length <$> md_streamBytes cur) !! N.to_nat visit.1 = Some (length r)) as Hl
      by (rewrite Hlens, list_lookup_fmap, Hr; reflexivity).
    rewrite list_lookup_fmap in Hl.
    destruct (md_streamBytes cur !! N.to_nat visit.1) as [r'|]; [|discriminate].
    exists r'. split; [reflexivity|]. cbn in Hl. congruence. }
  rewrite Hr'. cbn [mbind option_bind].
  destruct (memcpy_prefix r' (lockVertexBuffer visit.2.2 GBL_READ_ONLY)
              (u32 (getVertexSize visit.2.2 * HardwareBuffer.getNumVertices visit.2.2)))
    as (bytes & -> & Hbytes).
  - exact Hsrc.
  - rewrite Hlen'. exact Hn.
  - cbn [mbind option_bind completes]. eexists. split; [reflexivity|].
    split; [exact Hidx|]. cbn [set_streamBytes md_streamBytes].
    rewrite <- Hlens, list_fmap_insert. apply list_insert_id.
    rewrite list_lookup_fmap, Hr'. cbn. congruence.
Qed.

Lemma uploadedBuffers_Forall (d : MeshData) :
  Forall (fun kb => hasStream d kb.1 = true /\ kb.1 < getMaxStreamIdx d + 1 /\
                    kb.2 = uploadedBuffer d kb.1) (uploadedBuffers d).
Proof.
  unfold uploadedBuffers. apply Forall_fmap, Forall_forall. intros i Hi.
  apply list_elem_of_filter in Hi as [Hhas Hin]. apply elem_of_range in Hin.
  cbn. repeat split; assumption.
Qed.

Lemma range_Forall (n : N) : Forall (fun j => j < n) (range n).
Proof. apply Forall_forall. intros j Hj. apply elem_of_range. exact Hj. Qed.

(** X10: for a well-sized container whose byte counts fit 32 bits, with any
    number of vertex streams, the write, the allocation and the read all
    succeed, and the index bytes read back are the index bytes written. *)
Theorem writeThenRead_indices (d : MeshData) (this : Mesh) :
  wellSized d ->
  fits32 d ->
  exists back this',
    writeThenRead d this = Done (GRD_MeshData back) this' /\
    md_indexBytes back = md_indexBytes d.
Proof.
  intros Hw (Hsmall & Hall32 & Hvert32).
  set (es := getIndexElementSize d) in *.
  assert (Hes : 0 < es)
    by (unfold es, getIndexElementSize; destruct (md_indexType d); reflexivity).
  set (total := sumN (ied_numIndices <$> md_subMeshes d)) in *.
  assert (Htotal : total < 2 ^ 32) by nia.
  destruct (keptSubMeshes_contiguous d Htotal) as [Hcont Hsum]. fold total in Hsum.
  pose proof Hw as [Hidx _].
  assert (Hlen : N.of_nat (length (md_indexBytes d)) = total * es).
  { rewrite Hidx. unfold getIndexBufferSize, getNumIndices. fold total es.
    rewrite (u32_small total) by exact Htotal. apply u32_small. exact Hsmall. }
  set (this1 := {| mVertexData := Some (uploadedVertexData d);
                   mIndexData := Some (uploadedIndexData d);
                   mSubMeshes := keptSubMeshes d |}).
  unfold writeThenRead. unfold mbind at 1 2, Op_bind, bind.
  rewrite writeSubresource_run, (writtenMesh_uploaded d Hw). fold this1.
  unfold liftR.
  rewrite (allocateSubresourceBuffer_run 0 this1 (uploadedVertexData d)
             {| mElementList := assignOffsets [] (md_vertexElements d) |}
             (md_indexType d)) by reflexivity.
  set (b0 := allocated this1 (uploadedVertexData d) _ (md_indexType d)).
  unfold withData.
  rewrite (readSubresource_run 0 this1 b0 (uploadedIndexData d) _ (uploadedVertexData d))
    by reflexivity.
  unfold mbind at 1, Op_bind, bind.
  unfold range at 1. rewrite Nat2N.id.
  change (getType _) with (md_indexType d).
  change (ib_storage _) with (md_indexBytes d).
  change (getIndexSize _) with es.
  assert (Hloop :
    for_each (N.of_nat <$> seq 0 (length (mSubMeshes this1)))
      (readSubMeshIndices this1 (md_indexType d) (md_indexBytes d) es)
      (this1, GRD_MeshData b0)
    = Done tt (this1, GRD_MeshData (set_indexBytes (md_indexBytes d) b0))).
  { apply (readIndices_loop (md_indexBytes d) es (total * es) this1 (md_indexType d)
             (keptSubMeshes d) [] b0).
    - reflexivity.
    - reflexivity.
    - cbn. rewrite <- list_fmap_compose. reflexivity.
    - exact Hcont.
    - exact Hes.
    - exact Hlen.
    - cbn [app]. rewrite Hsum. reflexivity.
    - exact Hsmall.
    - cbn [fmap list_fmap]. change (sumN []) with 0. rewrite N.mul_0_l, N.sub_0_r.
      change (N.to_nat 0) with 0%nat. rewrite take_0. cbn [app].
      cbn. f_equal. unfold getIndexBufferSize, getNumIndices. cbn.
      rewrite <- list_fmap_compose.
      change (u32 (u32 (sumN (indexCount <$> keptSubMeshes d)) * es) = total * es).
      rewrite Hsum. rewrite (u32_small total) by exact Htotal.
      apply u32_small. exact Hsmall. }
  rewrite Hloop; clear Hloop.
  (* the vertex loop *)
  change (getBuffers (uploadedVertexData d)) with (uploadedBuffers d).
  set (b1 := set_indexBytes (md_indexBytes d) b0).
  assert (Hinv : readingStreams this1 (md_indexBytes d) b0 (this1, GRD_MeshData b1))
    by (exists b1; repeat split).
  pose proof (for_each_completes (readingStreams this1 (md_indexBytes d) b0)
                (fun visit : N * (N * VertexBuffer) =>
                   visit.1 < N.of_nat (length (uploadedBuffers d)) /\
                   (hasStream d visit.2.1 = true /\
                    visit.2.1 < getMaxStreamIdx d + 1 /\
                    visit.2.2 = uploadedBuffer d visit.2.1))
                readVertexStream
                (zip (range (N.of_nat (length (uploadedBuffers d)))) (uploadedBuffers d)))
    as Hfor.
  specialize (Hfor).
  assert (Hstep : forall (visit : N * (N * VertexBuffer)) s,
            visit.1 < N.of_nat (length (uploadedBuffers d)) /\
            (hasStream d visit.2.1 = true /\
             visit.2.1 < getMaxStreamIdx d + 1 /\
             visit.2.2 = uploadedBuffer d visit.2.1) ->
            readingStreams this1 (md_indexBytes d) b0 s ->
            completes (readingStreams this1 (md_indexBytes d) b0) (readVertexStream visit s)).
  { intros [j [i vb]] s (Hj & Hhas & Hi & Hvb) Hs. cbn [fst snd] in *. subst vb.
    assert (Helems : md_vertexElements d <> []) by (eapply hasStream_nonempty; exact Hhas).
    assert (Hsize : u32 (getVertexSize (uploadedBuffer d i)
                         * HardwareBuffer.getNumVertices (uploadedBuffer d i))
                    = getStreamSize d i) by reflexivity.
    assert (Hbound : getStreamSize d i
                     <= sumN (getSize <$> md_vertexElements d) * md_numVertices d).
    { unfold getStreamSize, getVertexStride, u32.
      etransitivity; [apply N.Div0.mod_le|].
      apply N.mul_le_mono_r. apply strideOf_le. }
    apply readVertexStream_completes; cbn [fst snd]; [| |exact Hs].
    - rewrite Hsize.
      exists (zeros (sumN (getSize <$> md_vertexElements d) * md_numVertices d)).
      split; [|rewrite length_zeros; exact Hbound].
      unfold b0, allocated, endDesc, set_streamBytes. cbn [md_streamBytes].
      rewrite list_lookup_fmap, range_lookup.
      + cbn. rewrite N2Nat.id. f_equal. f_equal.
        unfold getStreamSize, getVertexStride. cbn [md_vertexElements md_numVertices vertexCount uploadedVertexData set_indexBytes].
        rewrite strideOf_allocated by exact Hj. cbn [mElementList].
        rewrite assignOffsets_sizes.
        rewrite (u32_small _ Hall32). apply u32_small. exact Hvert32.
      + unfold getMaxStreamIdx. cbn [md_vertexElements set_indexBytes].
        pose proof (maxStream_allocated (length (getBuffers (uploadedVertexData d)))
                      (assignOffsets [] (md_vertexElements d)) j
                      (assignOffsets_nonempty _ _ Helems) Hj).
        cbn [mElementList]. lia.
    - rewrite Hsize. unfold uploadedBuffer. cbn [vb_storage].
      destruct (wellSized_stream d i Hw Hi) as (r & -> & Hr). cbn. lia. }
  specialize (Hfor Hstep).
  assert (Hall : Forall (fun visit : N * (N * VertexBuffer) =>
                   visit.1 < N.of_nat (length (uploadedBuffers d)) /\
                   (hasStream d visit.2.1 = true /\
                    visit.2.1 < getMaxStreamIdx d + 1 /\
                    visit.2.2 = uploadedBuffer d visit.2.1))
                  (zip (range (N.of_nat (length (uploadedBuffers d)))) (uploadedBuffers d))).
  { apply (Forall_zip (fun j => j < N.of_nat (length (uploadedBuffers d)))
             (fun kb : N * VertexBuffer =>
                hasStream d kb.1 = true /\ kb.1 < getMaxStreamIdx d + 1 /\
                kb.2 = uploadedBuffer d kb.1)).
    - apply range_Forall.
    - apply uploadedBuffers_Forall. }
  specialize (Hfor Hall _ Hinv).
  destruct (for_each _ readVertexStream _) as [a s'| |]; cbn in Hfor; try contradiction.
  destruct Hfor as (back & -> & Hback & _).
  exists back, this1. split; [reflexivity | exact Hback].
Qed.

(** The container with two streams. *)
Lemma writeThenRead_indices_witness :
  exists back this',
    writeThenRead Samples.twoStreams Mesh_new = Done (GRD_MeshData back) this' /\
    md_indexBytes back = md_indexBytes Samples.twoStreams.
Proof.
  apply (writeThenRead_indices Samples.twoStreams Mesh_new).
  - vm_compute. split; reflexivity.
  - vm_compute. repeat split.
Defined.

Lemma writeThenRead_inv (d : MeshData) (this this' : Mesh) (data : GpuResourceData) :
  writeThenRead d this = Done data this' ->
  exists this1 b0,
    writeSubresource true 0 (GRD_MeshData d) this = Done tt this1 /\
    allocateSubresourceBuffer 0 this1 = Ok b0 /\
    readSubresource true 0 (this1, GRD_MeshData b0) = Done tt (this', data).
Proof.
  unfold writeThenRead. unfold mbind at 1 2, Op_bind, bind.
  destruct (writeSubresource true 0 (GRD_MeshData d) this) as [[] this1| |] eqn:Hwr;
    [|discriminate|discriminate].
  unfold liftR. destruct (allocateSubresourceBuffer 0 this1) as [b0| |] eqn:Hal;
    [|discriminate|discriminate].
  unfold withData.
  destruct (readSubresource true 0 (this1, GRD_MeshData b0)) as [[] [m data']| |] eqn:Hrd;
    [|discriminate|discriminate].
  cbn [fst snd]. intros [= <- <-]. exists this1, b0.
  split; [reflexivity|]. split; [exact Hal | exact Hrd].
Qed.

(** X11: whenever the write, the allocation and the read complete, for any
    container, the mesh left is the one the write alone leaves, and the
    container returned has the vertex count, the index type and the
    per-submesh index counts of what was written, with regions of the sizes
    its own description asks for. *)
Theorem writeThenRead_returns (d : MeshData) (this this' : Mesh) (back : MeshData) :
  writeThenRead d this = Done (GRD_MeshData back) this' ->
  writeSubresource true 0 (GRD_MeshData d) this = Done tt this' /\
  md_numVertices back = getNumVertices d /\
  md_indexType back = getIndexType d /\
  ied_numIndices <$> md_subMeshes back = indexCount <$> keptSubMeshes d /\
  wellSized back.
Proof.
  intros Hrt. destruct (writeThenRead_inv _ _ _ _ Hrt) as (this1 & b0 & Hwr & Hal & Hrd).
  pose proof (readSubresource_readInto 0 this1 b0) as Hread. rewrite Hrd in Hread.
  destruct Hread as (back' & [= <- <-] & Hshape).
  rewrite writeSubresource_run in Hwr.
  destruct (writtenMesh d) as [m|] eqn:Hm; [|discriminate]. injection Hwr as ->.
  destruct (allocate_written 0 d this' Hm) as (b & Hb & Hn & Ht & Hs & Hw).
  rewrite Hal in Hb. injection Hb as <-.
  pose proof (wellSized_sameShape _ _ Hshape Hw) as Hwback.
  destruct Hshape as (Hn' & Ht' & _ & Hs' & _).
  split; [rewrite writeSubresource_run, Hm; reflexivity|].
  split; [congruence|]. split; [congruence|].
  split; [congruence | exact Hwback].
Qed.

(** The quad comes back as it was written. *)
Lemma writeThenRead_returns_witness :
  writeSubresource true 0 (GRD_MeshData Samples.quad) Mesh_new
  = Done tt (Samples.meshOf Samples.quad) /\
  md_numVertices Samples.quad = getNumVertices Samples.quad /\
  md_indexType Samples.quad = getIndexType Samples.quad /\
  ied_numIndices <$> md_subMeshes Samples.quad
  = indexCount <$> keptSubMeshes Samples.quad /\
  wellSized Samples.quad.
Proof.
  apply (writeThenRead_returns Samples.quad Mesh_new (Samples.meshOf Samples.quad)
           Samples.quad).
  vm_compute. reflexivity.
Defined.

Lemma layoutOf_assignOffsets (before l : list VertexElement) (s : N) :
  layoutOf (assignOffsets before l) s = layoutOf l s.
Proof.
  unfold layoutOf. revert before. induction l as [|e l IH]; intros before; [reflexivity|].
  cbn [assignOffsets]. rewrite !filter_cons. cbn [ve_streamIdx].
  destruct (decide (ve_streamIdx e = s)); cbn [fmap list_fmap]; [f_equal|]; apply IH.
Qed.

(** X12: for a well-sized container all of whose vertex elements are in
    stream 0 and whose index bytes fit 32 bits, the write, the allocation and
    the read succeed and return the index bytes, the stream bytes and, stream
    by stream, the vertex layout that were written. *)
Theorem roundTrip_singleStream (d : MeshData) (this : Mesh) :
  wellSized d ->
  inStream 0 (md_vertexElements d) ->
  sumN (ied_numIndices <$> md_subMeshes d) * getIndexElementSize d < 2 ^ 32 ->
  exists back this',
    writeThenRead d this = Done (GRD_MeshData back) this' /\
    md_indexBytes back = md_indexBytes d /\
    md_streamBytes back = md_streamBytes d /\
    forall streamIdx,
      layoutOf (md_vertexElements back) streamIdx
      = layoutOf (md_vertexElements d) streamIdx.
Proof.
  intros Hw Hall Hsmall.
  destruct (writeThenRead_singleStream d this Hw Hall Hsmall)
    as (back & this' & Hrt & Hidx & Hstr).
  exists back, this'. split; [exact Hrt|]. split; [exact Hidx|]. split; [exact Hstr|].
  destruct (writeThenRead_inv _ _ _ _ Hrt) as (this1 & b0 & Hwr & Hal & Hrd).
  pose proof (readSubresource_readInto 0 this1 b0) as Hread. rewrite Hrd in Hread.
  destruct Hread as (back' & [= <- <-] & (_ & _ & Helems & _)).
  rewrite Helems. clear Helems Hrd.
  rewrite writeSubresource_run in Hwr.
  unfold writtenMesh in Hwr.
  rewrite (writtenIndexData_wellSized d Hw), (writtenVertexData_inStream d Hw Hall) in Hwr.
  cbn [mbind option_bind] in Hwr. injection Hwr as <-.
  erewrite allocateSubresourceBuffer_run in Hal; cycle 1;
    [reflexivity | reflexivity | reflexivity |].
  injection Hal as <-. intros streamIdx.
  unfold allocated, getBuffers, singleStreamBuffers.
  cbn [endDesc set_streamBytes set_indexBytes md_vertexElements mVertexBuffers mElementList].
  destruct (hasStream d 0) eqn:Hhas.
  - cbn [length]. rewrite allocatedElements_one.
    rewrite layoutOf_retag by (apply assignOffsets_inStream; exact Hall).
    apply layoutOf_assignOffsets.
  - rewrite (hasStream_inStream d Hall) in Hhas. apply bool_decide_eq_false in Hhas.
    destruct (md_vertexElements d); [reflexivity|]. exfalso. apply Hhas. discriminate.
Qed.

(** The quad: one stream of positions. *)
Lemma roundTrip_singleStream_witness :
  exists back this',
    writeThenRead Samples.quad Mesh_new = Done (GRD_MeshData back) this' /\
    md_indexBytes back = md_indexBytes Samples.quad /\
    md_streamBytes back = md_streamBytes Samples.quad /\
    forall streamIdx,
      layoutOf (md_vertexElements back) streamIdx
      = layoutOf (md_vertexElements Samples.quad) streamIdx.
Proof.
  apply (roundTrip_singleStream Samples.quad Mesh_new).
  - vm_compute. split; reflexivity.
  - repeat constructor.
  - reflexivity.
Defined.

End TransferProps.

(** * Properties of the initialisation *)

Module LifecycleProps.
Import HardwareBuffer CmIndexData CmVertexData CmMeshData CmMesh MeshSpec.
Import TransferSpec MeshProps CmMeshResource.

Section Resource.

Variable dummyMeshData : MeshData.
Variable Resource : Type.
Variable Resource_initialize_internal : Op Resource unit.

(** X13: on the core thread, when the manager's dummy data is well sized and
    the initialisation of the base class succeeds, [initialize_internal]
    succeeds; the mesh it leaves is the one a write of the dummy data leaves,
    whatever the mesh held before, and an allocation on it succeeds. *)
Theorem initialize_internal_installs_dummy (base base' : Resource) (this : Mesh) :
  wellSized dummyMeshData ->
  Resource_initialize_internal base = Done tt base' ->
  exists this',
    initialize_internal true dummyMeshData Resource Resource_initialize_internal
      (base, this) = Done tt (base', this') /\
    writeSubresource true 0 (GRD_MeshData dummyMeshData) Mesh_new = Done tt this' /\
    exists buffer, allocateSubresourceBuffer 0 this' = Ok buffer.
Proof.
  intros Hw Hbase. destruct (writtenMesh_wellSized dummyMeshData Hw) as [this' Hm].
  exists this'. split; [|split].
  - unfold initialize_internal, THROW_IF_NOT_CORE_THREAD, onMesh, onResource.
    unfold mbind, Op_bind, bind, ret. cbn [fst snd].
    rewrite writeSubresource_run, Hm. cbn [fst snd]. rewrite Hbase. reflexivity.
  - rewrite writeSubresource_run, Hm. reflexivity.
  - destruct (TransferProps.allocate_written 0 dummyMeshData this' Hm)
      as (buffer & Hb & _).
    exists buffer. exact Hb.
Qed.

End Resource.

(** The quad as dummy data, and a base class whose initialisation does
    nothing. *)
Lemma initialize_internal_installs_dummy_witness :
  exists this',
    initialize_internal true Samples.quad unit (fun base => Done tt base)
      (tt, Mesh_new) = Done tt (tt, this') /\
    writeSubresource true 0 (GRD_MeshData Samples.quad) Mesh_new = Done tt this' /\
    exists buffer, allocateSubresourceBuffer 0 this' = Ok buffer.
Proof.
  apply (initialize_internal_installs_dummy Samples.quad unit
           (fun base => Done tt base) tt tt Mesh_new).
  - vm_compute. split; reflexivity.
  - reflexivity.
Defined.

End LifecycleProps.

(** * Properties of the element types of the parameter store *)

Module GpuParamsTypes.
Import BsGpuParams GpuParamsProps.

Lemma storedTypeOf_inj (T1 T2 : ElemType) :
  supported T1 -> supported T2 -> storedTypeOf T1 = storedTypeOf T2 -> T1 = T2.
Proof. destruct T1, T2; simpl; intros; try contradiction; try discriminate; reflexivity. Qed.

(** X14: a parameter answers to one element type only: when [getParam<T1>]
    succeeds on a name, [getParam<T2>] on the same name, for any other
    supported [T2], is rejected with the invalid-parameter exception and
    leaves its output unassigned. *)
Theorem getParam_one_type (T1 T2 : ElemType) (this : GpuParams) (name : string)
    (output1 handle1 : TGpuDataParam T1) (output2 : TGpuDataParam T2) :
  supported T1 -> supported T2 -> T1 <> T2 ->
  getParam T1 this name output1 = Done tt handle1 ->
  rejected (getParam T2 this name output2) output2.
Proof.
  intros H1 H2 Hne Hdone.
  pose proof (getParam_cases T1 this name output1 H1) as Hc1.
  pose proof (getParam_cases T2 this name output2 H2) as Hc2.
  destruct (params (mParamDesc this) !! name) as [desc|]; [|exact Hc2].
  destruct (bool_decide (type desc = storedTypeOf T2)) eqn:Ht2; [|exact Hc2].
  apply bool_decide_eq_true in Ht2.
  destruct (bool_decide (type desc = storedTypeOf T1)) eqn:Ht1.
  - apply bool_decide_eq_true in Ht1. exfalso. apply Hne.
    apply storedTypeOf_inj; congruence.
  - exfalso. exact (rejected_not_done _ _ _ Hdone Hc1).
Qed.

(** "tint" is found as [Vector4], so it is rejected as [float]. *)
Lemma getParam_one_type_witness :
  rejected (getParam T_float Samples.tintParams "tint" (Samples.nullHandle T_float))
    (Samples.nullHandle T_float).
Proof.
  apply (getParam_one_type T_Vector4 T_float Samples.tintParams "tint"
           (Samples.nullHandle T_Vector4) (GpuParamVec4 Samples.tintDesc (Some 1))
           (Samples.nullHandle T_float)).
  - exact I.
  - exact I.
  - discriminate.
  - vm_compute. reflexivity.
Defined.

(** X15: [getParam<T>] has two outcomes only, for every element type, the
    unspecialised ones included: it is rejected with the invalid-parameter
    exception and its output is unassigned, or [T] has a specialisation, the
    name is present with the stored type of [T], and the output is the handle
    of that descriptor and of the store's internal data. It is never
    undefined: the iterator is dereferenced only after the search is known to
    have found the name. *)
Theorem getParam_outcomes (T : ElemType) (this : GpuParams) (name : string)
    (output : TGpuDataParam T) :
  rejected (getParam T this name output) output \/
  (supported T /\
   exists d, params (mParamDesc this) !! name = Some d /\
             type d = storedTypeOf T /\
             getParam T this name output
             = Done tt (Build_TGpuDataParam T (Some d) (mInternalData this))).
Proof.
  destruct T as [| | | | | |n];
    try (pose proof (getParam_cases _ this name output I) as Hc;
         destruct (params (mParamDesc this) !! name) as [d|]; [|left; exact Hc];
         case_bool_decide as Hty; [|left; exact Hc];
         right; split; [exact I|]; exists d;
         split; [reflexivity|]; split; [exact Hty | exact Hc]).
  left. eexists. reflexivity.
Qed.

End GpuParamsTypes.
